(** * Dashboard export of moltbook-stats

    A shallow embedding of [export_dashboard_data.py]: the loader, the seven
    aggregators, the assembler and the JSON writer, followed by the
    properties of the exported document.

    Conventions of the embedding.
    - A pandas column cell is an [option]: [None] is the missing value (NaN,
      NaT).  Upvote, comment and post counts are natural numbers ([N]);
      the rates of the author statistics are finite floats, written as the
      rationals they denote ([Q]), so the rounding of binary arithmetic is
      not represented.  A bridge score is a number as [json.load] reads it,
      NaN and the infinities included ([pyfloat]).
    - A statistic that pandas may leave undefined is an [option Q]; [None]
      is NaN.
    - A Python [str] is a [string], one character per code point.
    - An exception is a [Raise] in the [result] monad.
    - The written file is the JSON value it holds, not its bytes. *)

From Stdlib Require Import ZArith NArith QArith List String Ascii Bool Lia.
From Stdlib Require Import Sorting.Sorted Sorting.Permutation DecimalString.
From Stdlib Require Import Lqa.
Import ListNotations.
Close Scope Q_scope.
Local Open Scope string_scope.
Local Open Scope list_scope.

Set Implicit Arguments.
Set Warnings "-register-all".

(** ** Exceptions *)

Inductive exn : Type :=
| FileNotFoundError (path : string)
| TypeError (what : string)
| ValueError (what : string)
| KeyError (key : string).

(** The error of [json.dump(..., allow_nan=False)] on a float that is not
    finite, and the error of [idxmax] on an empty series. *)
Definition nan_error : exn :=
  ValueError "Out of range float values are not JSON compliant".

Definition argmax_error : exn :=
  ValueError "attempt to get argmax of an empty sequence".

Inductive result (A : Type) : Type :=
| Ok (a : A)
| Raise (e : exn).

Arguments Ok {A} a.
Arguments Raise {A} e.

Definition bind {A B : Type} (r : result A) (k : A -> result B) : result B :=
  match r with
  | Ok a => k a
  | Raise e => Raise e
  end.

Notation "x <- r ;; k" := (bind r (fun x => k))
  (at level 61, r at next level, right associativity).

Fixpoint mapM {A B : Type} (f : A -> result B) (l : list A) : result (list B) :=
  match l with
  | [] => Ok []
  | x :: l' => y <- f x ;; ys <- mapM f l' ;; Ok (y :: ys)
  end.

(** ** Python and JSON values *)

Inductive pyfloat : Type :=
| PFin (q : Q)
| PNaN
| PInf (negative : bool).

Definition is_finite (f : pyfloat) : bool :=
  match f with
  | PFin _ => true
  | _ => false
  end.

(** A finite float in normal form, so that equal values are equal terms. *)
Definition fin (q : Q) : pyfloat := PFin (Qred q).

(** [float(x)] of a number read from JSON. *)
Definition float (x : pyfloat) : pyfloat :=
  match x with
  | PFin q => fin q
  | _ => x
  end.

(** [x < y] on Python numbers: a comparison with NaN is false. *)
Definition float_ltb (x y : pyfloat) : bool :=
  match x, y with
  | PNaN, _ => false
  | _, PNaN => false
  | PFin a, PFin b => negb (Qle_bool b a)
  | PFin _, PInf negative => negb negative
  | PInf negative, PFin _ => negative
  | PInf a, PInf b => a && negb b
  end.

(** [float(x)] of a statistic: NaN stays NaN. *)
Definition float_of (s : option Q) : pyfloat :=
  match s with
  | Some q => fin q
  | None => PNaN
  end.

Definition QofN (n : N) : Q := inject_Z (Z.of_N n).
Definition Qofnat (n : nat) : Q := inject_Z (Z.of_nat n).

Inductive json : Type :=
| JNull
| JBool (b : bool)
| JInt (z : Z)
| JFloat (f : pyfloat)
| JStr (s : string)
| JList (l : list json)
| JObj (fields : list (string * json)).

Definition JNat (n : nat) : json := JInt (Z.of_nat n).
Definition JN (n : N) : json := JInt (Z.of_N n).

Fixpoint assoc {V : Type} (k : string) (l : list (string * V)) : option V :=
  match l with
  | [] => None
  | (k', v) :: l' => if String.eqb k k' then Some v else assoc k l'
  end.

Definition get_field (k : string) (j : json) : option json :=
  match j with
  | JObj fs => assoc k fs
  | _ => None
  end.

Fixpoint get_path (p : list string) (j : json) : option json :=
  match p with
  | [] => Some j
  | k :: p' =>
      match get_field k j with
      | Some j' => get_path p' j'
      | None => None
      end
  end.

Fixpoint assoc_set {V : Type} (k : string) (v : V) (l : list (string * V))
  : list (string * V) :=
  match l with
  | [] => [(k, v)]
  | (k', v') :: l' =>
      if String.eqb k k' then (k, v) :: l' else (k', v') :: assoc_set k v l'
  end.

(** [set_path p v j]: the document [j] with the value at path [p] replaced
    by [v]; used to say that two documents differ at named places only. *)
Fixpoint set_path (p : list string) (v : json) (j : json) : json :=
  match p with
  | [] => v
  | k :: p' =>
      match j with
      | JObj fs =>
          match assoc k fs with
          | Some j' => JObj (assoc_set k (set_path p' v j') fs)
          | None => j
          end
      | _ => j
      end
  end.

(** Every float leaf of a document is finite. *)
Fixpoint finite_leaves (j : json) : bool :=
  match j with
  | JFloat f => is_finite f
  | JList l => forallb finite_leaves l
  | JObj fs => forallb (fun kv => finite_leaves (snd kv)) fs
  | _ => true
  end.

(** ** Python dictionaries

    A [dict] keeps its keys in insertion order; assigning to a key that is
    present replaces the value in place.  [json.load] builds an object by
    assigning its members in the order of the file. *)

Definition pydict (V : Type) : Type := list (string * V).

Definition dict_set {V : Type} (k : string) (v : V) (d : pydict V) : pydict V :=
  assoc_set k v d.

Definition dict_get {V : Type} (k : string) (d : pydict V) : option V :=
  assoc k d.

Definition json_load_object {V : Type} (members : list (string * V)) : pydict V :=
  fold_left (fun d kv => dict_set (fst kv) (snd kv) d) members [].

(** ** Stable sorting

    [list.sort], [sorted] and the mergesort of [nlargest] are stable.
    [before x y] says that [x] may stay in front of [y]. *)

Section StableSort.
Context {A : Type} (before : A -> A -> bool).

Fixpoint insert_stable (x : A) (l : list A) : list A :=
  match l with
  | [] => [x]
  | y :: l' => if before x y then x :: l else y :: insert_stable x l'
  end.

Definition stable_sort (l : list A) : list A :=
  fold_right insert_stable [] l.
End StableSort.

(** Descending and ascending order on a key. *)
Definition desc_by {A K : Type} (leb : K -> K -> bool) (key : A -> K)
  : A -> A -> bool := fun x y => leb (key y) (key x).

Definition asc_by {A K : Type} (leb : K -> K -> bool) (key : A -> K)
  : A -> A -> bool := fun x y => leb (key x) (key y).

(** ** Column operations of pandas *)

Fixpoint dropna {A : Type} (col : list (option A)) : list A :=
  match col with
  | [] => []
  | Some x :: col' => x :: dropna col'
  | None :: col' => dropna col'
  end.

Definition notna {A : Type} (c : option A) : bool :=
  match c with
  | Some _ => true
  | None => false
  end.

Definition isna {A : Type} (c : option A) : bool := negb (notna c).

(** [Series.fillna(v)] on one cell. *)
Definition fillna {A : Type} (v : A) (c : option A) : option A :=
  match c with
  | Some x => Some x
  | None => Some v
  end.

(** [Series.isna().all()]: true on an empty column. *)
Definition isna_all {A : Type} (col : list (option A)) : bool :=
  forallb isna col.

(** [Series.notna().sum()]. *)
Definition notna_sum {A : Type} (col : list (option A)) : nat :=
  List.length (filter notna col).

Fixpoint dedup {A : Type} (eqb : A -> A -> bool) (l : list A) : list A :=
  match l with
  | [] => []
  | x :: l' => x :: filter (fun y => negb (eqb x y)) (dedup eqb l')
  end.

(** [Series.nunique()]: distinct values, missing ones not counted. *)
Definition nunique (col : list (option string)) : nat :=
  List.length (dedup String.eqb (dropna col)).

Definition Nsum (l : list N) : N := fold_right N.add 0%N l.
Definition Qsum (l : list Q) : Q := fold_right Qplus 0%Q l.

(** [Series.sum()] skips missing values; the sum of none is 0. *)
Definition col_sum (col : list (option N)) : N := Nsum (dropna col).

(** [Series.mean()] skips missing values; the mean of none is NaN. *)
Definition mean (col : list (option Q)) : option Q :=
  match dropna col with
  | [] => None
  | xs => Some (Qred (Qsum xs / Qofnat (List.length xs))%Q)
  end.

Definition Qsorted (xs : list Q) : list Q :=
  stable_sort (asc_by Qle_bool (fun q => q)) xs.

Definition Qnth (i : nat) (xs : list Q) : Q := nth i xs 0%Q.

(** [Series.median()]: the middle value, or the mean of the two middle ones. *)
Definition median (col : list (option Q)) : option Q :=
  let xs := Qsorted (dropna col) in
  let n := List.length xs in
  match n with
  | O => None
  | _ =>
      if Nat.odd n then Some (Qred (Qnth (n / 2) xs))
      else Some (Qred ((Qnth (n / 2 - 1) xs + Qnth (n / 2) xs) / 2)%Q)
  end.

Definition Qfloor (q : Q) : Z := (Qnum q / Zpos (Qden q))%Z.

(** [Series.quantile(p)] with the default linear interpolation. *)
Definition quantile (p : Q) (col : list (option Q)) : option Q :=
  let xs := Qsorted (dropna col) in
  match List.length xs with
  | O => None
  | S m =>
      let pos := (p * Qofnat m)%Q in
      let lo := Z.to_nat (Qfloor pos) in
      let hi := Nat.min (S lo) m in
      let frac := (pos - inject_Z (Qfloor pos))%Q in
      Some (Qred (Qnth lo xs + (Qnth hi xs - Qnth lo xs) * frac)%Q)
  end.

(** Rounding to the nearest integer, halves to the even neighbour. *)
Definition round_half_even (q : Q) : Z :=
  let f := Qfloor q in
  match (q - inject_Z f ?= 1 # 2)%Q with
  | Lt => f
  | Gt => (f + 1)%Z
  | Eq => if Z.even f then f else (f + 1)%Z
  end.

(** [DataFrame.round(2)] on one cell. *)
Definition round2 (s : option Q) : option Q :=
  match s with
  | Some q => Some (Qred (inject_Z (round_half_even (q * 100)%Q) / 100)%Q)
  | None => None
  end.

(** [DataFrame.groupby(key)]: one group per distinct key, missing keys
    dropped, groups in ascending key order, the rows of a group in their
    original order. *)
Section GroupBy.
Context {A K : Type} (eqb leb : K -> K -> bool) (key : A -> option K).

Definition group_keys (rows : list A) : list K :=
  stable_sort (asc_by leb (fun k => k)) (dedup eqb (dropna (map key rows))).

Definition in_group (k : K) (r : A) : bool :=
  match key r with
  | Some k' => eqb k k'
  | None => false
  end.

Definition groupby (rows : list A) : list (K * list A) :=
  map (fun k => (k, filter (in_group k) rows)) (group_keys rows).
End GroupBy.

(** [nlargest(n, column)], keep = first: the rows with a value in descending
    order, ties in their original order, then the rows without a value; the
    first [n] of these. *)
Section NLargest.
Context {A K : Type} (leb : K -> K -> bool) (col : A -> option K).

Definition col_desc (x y : A) : bool :=
  match col x, col y with
  | Some a, Some b => leb b a
  | _, _ => true
  end.

Definition nlargest (n : nat) (rows : list A) : list A :=
  firstn n (stable_sort col_desc (filter (fun r => notna (col r)) rows)
            ++ filter (fun r => isna (col r)) rows).
End NLargest.

(** [read_csv] gives every column of a table without rows the dtype
    [object]; a column with rows, numeric cells or all of them missing, is
    [int64] or [float64].  [nlargest] refuses a column that is not numeric. *)
Definition numeric_dtype {A : Type} (loaded : list A) : bool :=
  match loaded with
  | [] => false
  | _ => true
  end.

Definition check_nlargest_dtype {A : Type} (column : string) (loaded : list A)
  : result unit :=
  if numeric_dtype loaded then Ok tt
  else Raise (TypeError (column ++ " has dtype object, cannot use method nlargest")).

(** [Series.idxmax()]: the label of the first largest value; an empty
    series raises. *)
Definition idxmax {K : Type} (s : list (K * Q)) : result K :=
  match s with
  | [] => Raise argmax_error
  | kv :: s' =>
      Ok (fst (fold_left
                 (fun best kv' =>
                    if Qle_bool (snd kv') (snd best) then best else kv')
                 s' kv))
  end.

(** ** Timestamps

    [pd.to_datetime] on the ISO-8601 layout [YYYY-MM-DD], optionally
    followed by [T] or a blank and [HH:MM:SS] and then by a fraction or a
    UTC offset.  The hour, the date and the weekday of a timestamp are
    those of the wall-clock time as written.  Other layouts, which pandas
    may accept, raise here. *)

Record datetime : Type := mk_datetime {
  dt_date : string;   (* the calendar date, [YYYY-MM-DD] *)
  dt_days : Z;        (* days since 1970-01-01 *)
  dt_hour : Z         (* 0 .. 23 *)
}.

Definition digit (c : ascii) : option Z :=
  let n := nat_of_ascii c in
  if (48 <=? n)%nat && (n <=? 57)%nat then Some (Z.of_nat (n - 48)) else None.

Fixpoint digits (s : string) (acc : Z) : option Z :=
  match s with
  | EmptyString => Some acc
  | String c s' =>
      match digit c with
      | Some v => digits s' (10 * acc + v)%Z
      | None => None
      end
  end.

(** A field of exactly [len] digits at offset [off]. *)
Definition field (off len : nat) (s : string) : option Z :=
  let f := substring off len s in
  if (String.length f =? len)%nat then digits f 0%Z else None.

Definition char_at (i : nat) (s : string) (allowed : list ascii) : bool :=
  match String.get i s with
  | Some c => existsb (Ascii.eqb c) allowed
  | None => false
  end.

Definition is_leap (y : Z) : bool :=
  ((y mod 4 =? 0) && (negb (y mod 100 =? 0) || (y mod 400 =? 0)))%Z.

Definition days_in_month (y m : Z) : Z :=
  if (m =? 2)%Z then (if is_leap y then 29 else 28)%Z
  else if ((m =? 4) || (m =? 6) || (m =? 9) || (m =? 11))%Z then 30%Z
  else 31%Z.

(** Days between 1970-01-01 and a date of the proleptic Gregorian calendar. *)
Definition days_from_civil (y m d : Z) : Z :=
  let y' := (if m <=? 2 then y - 1 else y)%Z in
  let era := (y' / 400)%Z in
  let yoe := (y' - era * 400)%Z in
  let mp := ((m + 9) mod 12)%Z in
  let doy := ((153 * mp + 2) / 5 + d - 1)%Z in
  let doe := (yoe * 365 + yoe / 4 - yoe / 100 + doy)%Z in
  (era * 146097 + doe - 719468)%Z.

Definition bad_timestamp (s : string) : exn :=
  ValueError ("time data " ++ s ++ " does not match the expected format").

Definition to_datetime (s : string) : result datetime :=
  match field 0 4 s, field 5 2 s, field 8 2 s with
  | Some y, Some m, Some d =>
      if char_at 4 s ["-"%char] && char_at 7 s ["-"%char]
         && (1 <=? m)%Z && (m <=? 12)%Z
         && (1 <=? d)%Z && (d <=? days_in_month y m)%Z
      then
        let date := substring 0 10 s in
        let days := days_from_civil y m d in
        if (String.length s =? 10)%nat then Ok (mk_datetime date days 0)
        else
          match field 11 2 s, field 14 2 s, field 17 2 s with
          | Some h, Some mi, Some se =>
              if char_at 10 s ["T"%char; " "%char]
                 && char_at 13 s [":"%char] && char_at 16 s [":"%char]
                 && (h <=? 23)%Z && (mi <=? 59)%Z && (se <=? 59)%Z
                 && ((String.length s =? 19)%nat
                     || char_at 19 s ["."%char; "+"%char; "-"%char; "Z"%char])
              then Ok (mk_datetime date days h)
              else Raise (bad_timestamp s)
          | _, _, _ => Raise (bad_timestamp s)
          end
      else Raise (bad_timestamp s)
  | _, _, _ => Raise (bad_timestamp s)
  end.

Definition day_order : list string :=
  ["Monday"; "Tuesday"; "Wednesday"; "Thursday"; "Friday"; "Saturday"; "Sunday"].

(** 1970-01-01 was a Thursday. *)
Definition weekday (days : Z) : nat := Z.to_nat ((days + 3) mod 7).

Definition day_name (t : datetime) : string :=
  nth (weekday (dt_days t)) day_order "".

(** ** Data model *)

Record post : Type := mk_post {
  post_id : option string;              (* column [id] *)
  title : option string;
  author_name : option string;
  submolt_display_name : option string;
  upvotes : option N;
  comment_count : option N;
  created_at : option string;
  url : option string
}.

(** A record of [author_stats.csv]; [author] is its leading column. *)
Record author_row : Type := mk_author_row {
  author : option string;
  total_posts : option N;
  avg_upvotes : option Q;
  engagement_rate : option Q;
  success_rate : option Q;
  consistency_score : option Q;
  upvotes_std : option Q;
  posts_per_day : option Q
}.

(** The five input files; [None] is a file that is missing, unreadable or
    malformed.  A JSON object is the list of its members as written. *)
Record files : Type := mk_files {
  posts_latest_csv : option (list post);
  author_stats_csv : option (list author_row);
  cross_posters_json : option (list (string * list string));
  bridge_authors_json : option (list (string * pyfloat));
  network_stats_json : option (list (string * json))
}.

(** The loaded data.  The rows of the author statistics carry their index
    label. *)
Record data : Type := mk_data {
  posts : list post;
  author_stats : list (nat * author_row);
  cross_posters : pydict (list string);
  bridge_authors : pydict pyfloat;
  network_stats : pydict json
}.

(** ** Loader *)

(** [pd.read_csv(path)] without [index_col]: the rows are labelled
    0, 1, 2, ... and every column of the file is a data column. *)
Definition range_index {A : Type} (rows : list A) : list (nat * A) :=
  combine (seq 0 (List.length rows)) rows.

Definition read_csv {A : Type} (path : string) (f : option (list A))
  : result (list A) :=
  match f with
  | Some rows => Ok rows
  | None => Raise (FileNotFoundError path)
  end.

(** [try: json.load(f) except: {}]. *)
Definition load_json {V : Type} (f : option (list (string * V))) : pydict V :=
  match f with
  | Some members => json_load_object members
  | None => []
  end.

Definition load_all_data (fs : files) : result data :=
  p <- read_csv "data/posts_latest.csv" (posts_latest_csv fs) ;;
  a <- read_csv "data/author_stats.csv" (author_stats_csv fs) ;;
  Ok (mk_data p (range_index a)
              (load_json (cross_posters_json fs))
              (load_json (bridge_authors_json fs))
              (load_json (network_stats_json fs))).

(** ** Small conversions *)

(** [str(n)] of a non-negative [int]. *)
Definition str_of_nat (n : nat) : string :=
  NilEmpty.string_of_uint (Nat.to_uint n).

(** [x if pd.notna(x) else d]. *)
Definition or_else {A : Type} (d : A) (c : option A) : A :=
  match c with
  | Some x => x
  | None => d
  end.

(** A column of counts as floats. *)
Definition Qcol (col : list (option N)) : list (option Q) :=
  map (option_map QofN) col.

(** [str(column.min())] and [str(column.max())] of a text column, missing
    cells skipped; the minimum of no value is NaN. *)
Definition str_min (col : list (option string)) : string :=
  match dropna col with
  | [] => "nan"
  | x :: xs => fold_left (fun m s => if String.ltb s m then s else m) xs x
  end.

Definition str_max (col : list (option string)) : string :=
  match dropna col with
  | [] => "nan"
  | x :: xs => fold_left (fun m s => if String.ltb m s then s else m) xs x
  end.

(** A text cell in [to_dict('records')]: a missing one is the float NaN. *)
Definition text_cell (c : option string) : json :=
  match c with
  | Some s => JStr s
  | None => JFloat PNaN
  end.

(** A column that holds a missing value is [float64], else [int64]. *)
Definition int_or_float (as_float : bool) (z : Z) : json :=
  if as_float then JFloat (fin (inject_Z z)) else JInt z.

(** ** Overview aggregator *)

Definition export_overview_stats (d : data) : json :=
  let df := posts d in
  JObj
    [ ("total_posts", JNat (List.length df));
      ("total_authors", JNat (nunique (map author_name df)));
      ("total_submolts", JNat (nunique (map submolt_display_name df)));
      ("total_upvotes", JN (col_sum (map upvotes df)));
      ("total_comments", JN (col_sum (map comment_count df)));
      ("avg_upvotes_per_post", JFloat (float_of (mean (Qcol (map upvotes df)))));
      ("median_upvotes", JFloat (float_of (median (Qcol (map upvotes df)))));
      ("avg_comments_per_post",
        JFloat (float_of (mean (Qcol (map comment_count df)))));
      ("date_range",
        JObj [ ("start", JStr (str_min (map created_at df)));
               ("end", JStr (str_max (map created_at df))) ]) ].

(** ** Top-posts aggregator *)

Definition fill_top_posts (p : post) : post :=
  mk_post (post_id p) (fillna "" (title p)) (fillna "Unknown" (author_name p))
          (fillna "Unknown" (submolt_display_name p))
          (upvotes p) (comment_count p) (created_at p) (url p).

Definition top_post_record (p : post) : json :=
  JObj
    [ ("title",
        JStr (match title p with
              | Some t => if String.eqb t "" then "Untitled" else t
              | None => "nan"
              end));
      ("upvotes", JN (or_else 0%N (upvotes p)));
      ("comment_count", JN (or_else 0%N (comment_count p)));
      ("author_name", text_cell (author_name p));
      ("submolt_display_name", text_cell (submolt_display_name p));
      ("created_at", JStr (or_else "" (created_at p))) ].

Definition top_posts_rows (d : data) (n : nat) : list post :=
  nlargest N.leb upvotes n (map fill_top_posts (posts d)).

Definition export_top_posts (d : data) (n : nat) : result json :=
  _ <- check_nlargest_dtype "upvotes" (posts d) ;;
  Ok (JList (map top_post_record (top_posts_rows d n))).

(** ** Top-authors aggregator *)

(** [author_stats.fillna(0)]; the text column is not read afterwards. *)
Definition fillna0_author (r : author_row) : author_row :=
  mk_author_row (author r) (fillna 0%N (total_posts r))
                (fillna 0%Q (avg_upvotes r)) (fillna 0%Q (engagement_rate r))
                (fillna 0%Q (success_rate r)) (fillna 0%Q (consistency_score r))
                (fillna 0%Q (upvotes_std r)) (fillna 0%Q (posts_per_day r)).

Definition fillna0_stats (t : list (nat * author_row)) : list (nat * author_row) :=
  map (fun ir => (fst ir, fillna0_author (snd ir))) t.

(** [author_stats['total_posts'] >= 5] on one row. *)
Definition at_least_5_posts (ir : nat * author_row) : bool :=
  match total_posts (snd ir) with
  | Some n => (5 <=? n)%N
  | None => false
  end.

Definition active_authors (t : list (nat * author_row)) : list (nat * author_row) :=
  filter at_least_5_posts t.

Definition float_cell (c : option Q) : json := JFloat (fin (or_else 0%Q c)).
Definition count_cell (c : option N) : json := JN (or_else 0%N c).

(** [str(row.name)]: the index label of the row. *)
Definition row_name (ir : nat * author_row) : json := JStr (str_of_nat (fst ir)).

Definition engagement_entry (ir : nat * author_row) : json :=
  let row := snd ir in
  JObj [ ("name", row_name ir);
         ("engagement_rate", float_cell (engagement_rate row));
         ("total_posts", count_cell (total_posts row));
         ("avg_upvotes", float_cell (avg_upvotes row));
         ("success_rate", float_cell (success_rate row)) ].

Definition posts_entry (ir : nat * author_row) : json :=
  let row := snd ir in
  JObj [ ("name", row_name ir);
         ("total_posts", count_cell (total_posts row));
         ("avg_upvotes", float_cell (avg_upvotes row));
         ("posts_per_day", float_cell (posts_per_day row)) ].

Definition consistency_entry (ir : nat * author_row) : json :=
  let row := snd ir in
  JObj [ ("name", row_name ir);
         ("consistency_score", float_cell (consistency_score row));
         ("total_posts", count_cell (total_posts row));
         ("avg_upvotes", float_cell (avg_upvotes row));
         ("upvotes_std", float_cell (upvotes_std row)) ].

Definition by_engagement_rows (d : data) (n : nat) : list (nat * author_row) :=
  nlargest Qle_bool (fun ir => engagement_rate (snd ir)) n
           (active_authors (fillna0_stats (author_stats d))).

Definition by_posts_rows (d : data) (n : nat) : list (nat * author_row) :=
  nlargest N.leb (fun ir => total_posts (snd ir)) n
           (fillna0_stats (author_stats d)).

Definition by_consistency_rows (d : data) (n : nat) : list (nat * author_row) :=
  nlargest Qle_bool (fun ir => consistency_score (snd ir)) n
           (active_authors (fillna0_stats (author_stats d))).

Definition export_top_authors (d : data) (n : nat) : result json :=
  _ <- check_nlargest_dtype "engagement_rate" (author_stats d) ;;
  let by_engagement := map engagement_entry (by_engagement_rows d n) in
  _ <- check_nlargest_dtype "total_posts" (author_stats d) ;;
  let by_posts := map posts_entry (by_posts_rows d n) in
  _ <- check_nlargest_dtype "consistency_score" (author_stats d) ;;
  let by_consistency := map consistency_entry (by_consistency_rows d n) in
  Ok (JObj [ ("by_engagement", JList by_engagement);
             ("by_posts", JList by_posts);
             ("by_consistency", JList by_consistency) ]).

(** ** Top-submolts aggregator *)

Definition fill_submolt (p : post) : post :=
  mk_post (post_id p) (title p) (author_name p)
          (fillna "Unknown" (submolt_display_name p))
          (fillna 0%N (upvotes p)) (fillna 0%N (comment_count p))
          (created_at p) (url p).

Record submolt_row : Type := mk_submolt_row {
  post_count : nat;
  total_upvotes : N;
  sm_avg_upvotes : option Q;
  median_upvotes : option Q;
  total_comments : N;
  avg_comments : option Q;
  unique_authors : nat
}.

(** The aggregation of one group, then [.round(2).fillna(0)]. *)
Definition submolt_agg (rows : list post) : submolt_row :=
  mk_submolt_row
    (notna_sum (map post_id rows))
    (col_sum (map upvotes rows))
    (fillna 0%Q (round2 (mean (Qcol (map upvotes rows)))))
    (fillna 0%Q (round2 (median (Qcol (map upvotes rows)))))
    (col_sum (map comment_count rows))
    (fillna 0%Q (round2 (mean (Qcol (map comment_count rows)))))
    (nunique (map author_name rows)).

Definition submolt_stats (d : data) : list (string * submolt_row) :=
  map (fun g => (fst g, submolt_agg (snd g)))
      (groupby String.eqb String.leb submolt_display_name
               (map fill_submolt (posts d))).

Definition submolt_entry (sr : string * submolt_row) : json :=
  let row := snd sr in
  JObj [ ("name", JStr (fst sr));
         ("post_count", JNat (post_count row));
         ("total_upvotes", JN (total_upvotes row));
         ("avg_upvotes", JFloat (float_of (sm_avg_upvotes row)));
         ("median_upvotes", JFloat (float_of (median_upvotes row)));
         ("total_comments", JN (total_comments row));
         ("avg_comments", JFloat (float_of (avg_comments row)));
         ("unique_authors", JNat (unique_authors row)) ].

Definition export_submolt_stats (d : data) (n : nat) : json :=
  JList (map submolt_entry
             (nlargest Nat.leb (fun sr => Some (post_count (snd sr))) n
                       (submolt_stats d))).

(** ** Time-series aggregator *)

Definition to_datetime_cell (c : option string) : result (option datetime) :=
  match c with
  | Some s => t <- to_datetime s ;; Ok (Some t)
  | None => Ok None
  end.

(** [pd.to_datetime(df['created_at'])]: the posts with their timestamps. *)
Definition with_timestamps (df : list post)
  : result (list (post * option datetime)) :=
  ts <- mapM to_datetime_cell (map created_at df) ;;
  Ok (combine df ts).

Definition fill_upvotes (p : post) : post :=
  mk_post (post_id p) (title p) (author_name p) (submolt_display_name p)
          (fillna 0%N (upvotes p)) (comment_count p) (created_at p) (url p).

Definition timed : Type := (post * option datetime)%type.

Definition date_key (r : timed) : option string := option_map dt_date (snd r).
Definition hour_key (r : timed) : option Z := option_map dt_hour (snd r).
Definition day_key (r : timed) : option string := option_map day_name (snd r).

(** The aggregations [{'id': 'count', 'upvotes': ...}] of one group. *)
Definition id_count (rows : list timed) : nat :=
  notna_sum (map (fun r => post_id (fst r)) rows).

Definition upvotes_sum (rows : list timed) : N :=
  col_sum (map (fun r => upvotes (fst r)) rows).

Definition upvotes_mean (rows : list timed) : option Q :=
  mean (Qcol (map (fun r => upvotes (fst r)) rows)).

Definition by_date (rows : list timed) : list (string * list timed) :=
  groupby String.eqb String.leb date_key rows.

Definition by_hour (rows : list timed) : list (Z * list timed) :=
  groupby Z.eqb Z.leb hour_key rows.

Definition by_day (rows : list timed) : list (string * list timed) :=
  groupby String.eqb String.leb day_key rows.

Definition daily_record (upvotes_float : bool) (g : string * list timed) : json :=
  JObj [ ("date", JStr (fst g));
         ("id", JNat (id_count (snd g)));
         ("upvotes", int_or_float upvotes_float (Z.of_N (upvotes_sum (snd g)))) ].

Definition hourly_record (hour_float : bool) (g : Z * list timed) : json :=
  JObj [ ("hour", int_or_float hour_float (fst g));
         ("id", JNat (id_count (snd g)));
         ("upvotes", JFloat (float_of (fillna 0%Q (upvotes_mean (snd g))))) ].

(** One row of [.reindex(day_order).reset_index().fillna(0)]: a weekday
    without posts is a row of missing values, filled with 0. *)
Definition day_record (count_float : bool) (groups : list (string * list timed))
  (day : string) : json :=
  match assoc day groups with
  | Some rows =>
      JObj [ ("day_of_week", JStr day);
             ("id", int_or_float count_float (Z.of_nat (id_count rows)));
             ("upvotes", JFloat (float_of (fillna 0%Q (upvotes_mean rows)))) ]
  | None =>
      JObj [ ("day_of_week", JStr day);
             ("id", JFloat (fin 0%Q));
             ("upvotes", JFloat (fin 0%Q)) ]
  end.

Definition hourly_pattern (d : data) (rows : list timed) : list json :=
  map (hourly_record (existsb isna (map created_at (posts d)))) (by_hour rows).

(** The row of a weekday when the posts table has no rows: its [upvotes]
    column has the dtype [object] then, and the missing mean is filled with
    the integer 0. *)
Definition no_rows_day_record (day : string) : json :=
  JObj [ ("day_of_week", JStr day);
         ("id", JFloat (fin 0%Q));
         ("upvotes", JInt 0) ].

Definition day_of_week_pattern (rows : list timed) : list json :=
  match rows with
  | [] => map no_rows_day_record day_order
  | _ =>
      let groups := by_day rows in
      let some_day_empty :=
        existsb (fun day => isna (assoc day groups)) day_order in
      map (day_record some_day_empty groups) day_order
  end.

Definition export_time_series (d : data) : result json :=
  rows <- with_timestamps (map fill_upvotes (posts d)) ;;
  let daily :=
    map (daily_record (existsb isna (map upvotes (posts d)))) (by_date rows) in
  Ok (JObj [ ("daily_posts", JList daily);
             ("hourly_pattern", JList (hourly_pattern d rows));
             ("day_of_week_pattern", JList (day_of_week_pattern rows)) ]).

(** ** Network aggregator *)

Definition cross_poster_counts (cp : pydict (list string)) : list (string * nat) :=
  stable_sort (desc_by Nat.leb snd)
              (map (fun kv => (fst kv, List.length (snd kv))) cp).

(** [cross_posters[author]]. *)
Definition dict_item {V : Type} (k : string) (d : pydict V) : result V :=
  match dict_get k d with
  | Some v => Ok v
  | None => Raise (KeyError k)
  end.

Definition cross_poster_entry (cp : pydict (list string)) (ac : string * nat)
  : result json :=
  submolts <- dict_item (fst ac) cp ;;
  Ok (JObj [ ("author", JStr (fst ac));
             ("submolt_count", JNat (snd ac));
             ("submolts", JList (map JStr (firstn 5 submolts))) ]).

Definition top_cross_posters (cp : pydict (list string)) : result (list json) :=
  mapM (cross_poster_entry cp) (firstn 20 (cross_poster_counts cp)).

(** [sorted(bridge_authors.items(), key=lambda x: x[1], reverse=True)]:
    descending and stable.  The sort asks only whether one score is below
    another; an item stays in front of the items it is not below.  With a
    NaN among the scores [<] is not an order, and what Python returns then
    depends on the comparisons its algorithm happens to make, which this
    sort does not reproduce. *)
Definition bridge_sorted (b : pydict pyfloat) : list (string * pyfloat) :=
  stable_sort (fun x y => negb (float_ltb (snd x) (snd y))) b.

Definition bridge_entry (kv : string * pyfloat) : json :=
  JObj [ ("author", JStr (fst kv)); ("bridge_score", JFloat (float (snd kv))) ].

Definition export_network_data (d : data) : result json :=
  top <- top_cross_posters (cross_posters d) ;;
  Ok (JObj [ ("stats", JObj (network_stats d));
             ("top_cross_posters", JList top);
             ("top_bridge_authors",
               JList (map bridge_entry (firstn 20 (bridge_sorted (bridge_authors d))))) ]).

(** ** Insights aggregator *)

Definition fill_insights (p : post) : post :=
  mk_post (post_id p) (fillna "" (title p)) (author_name p)
          (submolt_display_name p) (fillna 0%N (upvotes p)) (comment_count p)
          (created_at p) (fillna "" (url p)).

(** [float(stat) if not column.isna().all() else 0.0]. *)
Definition guarded {A : Type} (col : list (option A)) (stat : option Q) : json :=
  if negb (isna_all col) then JFloat (float_of stat) else JFloat (fin 0%Q).

(** [series.fillna(0)] on the means of the groups. *)
Definition group_means {K : Type} (groups : list (K * list timed)) : list (K * Q) :=
  map (fun g => (fst g, or_else 0%Q (upvotes_mean (snd g)))) groups.

Definition title_lengths (df : list post) : list (option Q) :=
  map (fun p => option_map (fun t => Qofnat (String.length t)) (title p)) df.

Definition cross_posting_rate (d : data) : json :=
  if (0 <? List.length (author_stats d))%nat
  then JFloat (fin (Qofnat (List.length (cross_posters d))
                    / Qofnat (List.length (author_stats d)) * 100)%Q)
  else JFloat (fin 0%Q).

Definition export_insights (d : data) : result json :=
  let df := map fill_insights (posts d) in
  let stats := fillna0_stats (author_stats d) in
  let up := map upvotes df in
  let engagement :=
    JObj [ ("avg_upvotes", guarded up (mean (Qcol up)));
           ("median_upvotes", guarded up (median (Qcol up)));
           ("top_1_percent_threshold", guarded up (quantile (99 # 100) (Qcol up)));
           ("viral_threshold", guarded up (quantile (90 # 100) (Qcol up))) ] in
  let tp := map (fun ir => total_posts (snd ir)) stats in
  let authors :=
    JObj [ ("total", JNat (nunique (map author_name df)));
           ("active_5plus", JNat (List.length (active_authors stats)));
           ("avg_posts_per_author", guarded tp (mean (Qcol tp)));
           ("cross_posting_rate", cross_posting_rate d) ] in
  let content :=
    JObj [ ("total_posts", JNat (List.length df));
           ("total_submolts", JNat (nunique (map submolt_display_name df)));
           ("avg_title_length", guarded (map title df) (mean (title_lengths df)));
           ("posts_with_urls", JNat (notna_sum (map url df))) ] in
  rows <- with_timestamps df ;;
  best_hour <- idxmax (group_means (by_hour rows)) ;;
  best_day <- idxmax (group_means (by_day rows)) ;;
  Ok (JObj [ ("engagement", engagement);
             ("authors", authors);
             ("content", content);
             ("timing", JObj [ ("best_hour", JInt best_hour);
                               ("best_day", JStr best_day) ]) ]).

(** ** Assembler and writer *)

(** The state of [dashboard_data.json] after a run. *)
Inductive output_file : Type :=
| Untouched                (* never opened *)
| Truncated                (* opened for writing, no complete document in it *)
| Complete (doc : json).

(** [json.dump(doc, f, allow_nan=False)] on the freshly opened file. *)
Definition json_dump (doc : json) : result unit * output_file :=
  if finite_leaves doc then (Ok tt, Complete doc)
  else (Raise nan_error, Truncated).

(** The dictionary [dashboard_data] of [main]; [now] is
    [datetime.now().isoformat()]. *)
Definition dashboard_data (d : data) (now : string) : result json :=
  let overview := export_overview_stats d in
  top_posts <- export_top_posts d 20 ;;
  top_authors <- export_top_authors d 20 ;;
  let top_submolts := export_submolt_stats d 30 in
  time_series <- export_time_series d ;;
  network <- export_network_data d ;;
  insights <- export_insights d ;;
  Ok (JObj [ ("generated_at", JStr now);
             ("overview", overview);
             ("top_posts", top_posts);
             ("top_authors", top_authors);
             ("top_submolts", top_submolts);
             ("time_series", time_series);
             ("network", network);
             ("insights", insights) ]).

Definition main (fs : files) (now : string) : result unit * output_file :=
  match load_all_data fs with
  | Raise e => (Raise e, Untouched)
  | Ok d =>
      match dashboard_data d now with
      | Raise e => (Raise e, Untouched)
      | Ok doc => json_dump doc
      end
  end.

(** * Vocabulary of the statements *)

(** ** Rankings *)

(** The upvotes a post is exported with. *)
Definition exported_upvotes (p : post) : N := or_else 0%N (upvotes p).

(** The record the network aggregator emits for one member of the mapping. *)
Definition cross_poster_record (kv : string * list string) : json :=
  JObj [ ("author", JStr (fst kv));
         ("submolt_count", JNat (List.length (snd kv)));
         ("submolts", JList (map JStr (firstn 5 (snd kv)))) ].

Definition by_list_length : (string * list string) -> (string * list string) -> bool :=
  desc_by Nat.leb (fun kv => List.length (snd kv)).

(** The number of distinct names of a list, as the specification counts
    the submolts of an author. *)
Definition distinct_count (l : list string) : nat :=
  List.length (dedup String.eqb l).

(** The ranking as the specification words it: by the number of distinct
    submolts of each author. *)
Definition distinct_record (kv : string * list string) : json :=
  JObj [ ("author", JStr (fst kv));
         ("submolt_count", JNat (distinct_count (snd kv)));
         ("submolts", JList (map JStr (firstn 5 (snd kv)))) ].

Definition ranked_by_distinct (cp : pydict (list string)) (out : list json) : Prop :=
  exists ranked : list (string * list string),
    out = map distinct_record ranked /\
    List.length ranked <= 20 /\
    incl ranked cp /\
    StronglySorted
      (fun x y => distinct_count (snd y) <= distinct_count (snd x)) ranked.

(** ** Hours and weekdays *)

(** The timestamp of a cell that parses. *)
Definition parsed (c : option string) : option datetime :=
  match c with
  | Some s =>
      match to_datetime s with
      | Ok t => Some t
      | Raise _ => None
      end
  | None => None
  end.

(** The hour and the weekday of a post, when it has a timestamp. *)
Definition post_hour (p : post) : option Z :=
  option_map dt_hour (parsed (created_at p)).

Definition post_day (p : post) : option string :=
  option_map day_name (parsed (created_at p)).

(** The record of a weekday on which nothing was posted. *)
Definition empty_day_record (day : string) : json :=
  JObj [ ("day_of_week", JStr day);
         ("id", JFloat (PFin 0%Q));
         ("upvotes", JFloat (PFin 0%Q)) ].

(** The shape of the two patterns of a document [doc] exported from [d]:
    the hours listed are those at which some post was created, ascending;
    the weekdays listed are the seven of [day_order]. *)
Definition hourly_and_weekly_patterns (d : data) (doc : json) : Prop :=
  exists (hourly dow : list json) (hours : list Z),
    get_path ["time_series"; "hourly_pattern"] doc = Some (JList hourly) /\
    get_path ["time_series"; "day_of_week_pattern"] doc = Some (JList dow) /\
    map (get_field "hour") hourly
    = map (fun h => Some (int_or_float (existsb isna (map created_at (posts d))) h))
          hours /\
    StronglySorted Z.lt hours /\
    (forall h, In h hours <-> exists p, In p (posts d) /\ post_hour p = Some h) /\
    Forall (fun h => (0 <= h <= 23)%Z) hours /\
    List.length hourly <= 24 /\
    List.length dow = 7 /\
    map (get_field "day_of_week") dow = map (fun s => Some (JStr s)) day_order /\
    (forall i day,
       nth_error day_order i = Some day ->
       (forall p, In p (posts d) -> post_day p <> Some day) ->
       nth_error dow i = Some (empty_day_record day)).

(** ** Runs without the cross-poster file *)




(** ** Sample inputs *)

(** One post, created on Monday 2026-01-05 shortly after midnight, without
    a URL. *)
Definition sample_post : post :=
  mk_post (Some "p1") (Some "Hello") (Some "alice") (Some "general")
          (Some 10%N) (Some 1%N) (Some "2026-01-05T00:10:00") None.

Definition sample_author : author_row :=
  mk_author_row (Some "alice") (Some 10%N) (Some 3%Q) (Some (1 # 2)%Q)
                (Some (1 # 4)%Q) (Some (9 # 10)%Q) (Some 2%Q) (Some 1%Q).

Definition sample_files : files :=
  mk_files (Some [sample_post]) (Some [sample_author]) None None None.

(** The same post with an empty upvotes cell. *)
Definition upvotes_missing_files : files :=
  mk_files (Some [ mk_post (Some "p1") (Some "Hello") (Some "alice") (Some "general")
                           None (Some 1%N) (Some "2026-01-05T00:10:00") None ])
           (Some [sample_author]) None None None.

(** Three posts with upvotes 10, 50, 5 and comment counts 1, 2, 0. *)
Definition three_posts : list post :=
  [ mk_post (Some "p1") (Some "One") (Some "alice") (Some "general")
            (Some 10%N) (Some 1%N) (Some "2026-01-05T00:10:00") None;
    mk_post (Some "p2") (Some "Two") (Some "bob") (Some "general")
            (Some 50%N) (Some 2%N) (Some "2026-01-06T13:00:00") None;
    mk_post (Some "p3") (Some "Three") (Some "alice") (Some "general")
            (Some 5%N) (Some 0%N) (Some "2026-01-07T13:30:00") None ].

(** Two posts of one submolt with upvotes 4 and 6. *)
Definition two_posts : list post :=
  [ mk_post (Some "p1") (Some "One") (Some "alice") (Some "tools")
            (Some 4%N) (Some 0%N) (Some "2026-01-05T00:10:00") None;
    mk_post (Some "p2") (Some "Two") (Some "bob") (Some "tools")
            (Some 6%N) (Some 1%N) (Some "2026-01-06T13:00:00") None ].

(** An author with fewer than 5 posts. *)
Definition occasional_author : author_row :=
  mk_author_row (Some "bob") (Some 3%N) (Some 7%Q) (Some (3 # 4)%Q)
                (Some (1 # 2)%Q) (Some (1 # 2)%Q) (Some 1%Q) (Some (1 # 10)%Q).

(** A posts file with its header line only. *)
Definition empty_posts_files : files :=
  mk_files (Some []) (Some [sample_author]) None None None.

(** The error of [nlargest] on the upvotes column of a table without rows. *)
Definition nlargest_error : exn :=
  TypeError "upvotes has dtype object, cannot use method nlargest".

(** ** Further vocabulary *)

(** The mean upvotes of some posts, a missing count taken as 0; 0 when
    there is no post. *)
Definition mean_upvotes (ps : list post) : Q :=
  or_else 0%Q (mean (Qcol (map (fun p => fillna 0%N (upvotes p)) ps))).

(** The posts created at hour [h], and those created on weekday [day]. *)
Definition posts_at_hour (d : data) (h : Z) : list post :=
  filter (fun p => match post_hour p with
                   | Some h' => Z.eqb h h'
                   | None => false
                   end) (posts d).

Definition posts_on_day (d : data) (day : string) : list post :=
  filter (fun p => match post_day p with
                   | Some day' => String.eqb day day'
                   | None => false
                   end) (posts d).

(** Every timestamp of the posts table parses; some post has a timestamp. *)
Definition timestamps_parse (d : data) : Prop :=
  forall p s, In p (posts d) -> created_at p = Some s ->
              exists t, to_datetime s = Ok t.

Definition some_timestamp (d : data) : Prop :=
  exists p, In p (posts d) /\ created_at p <> None.

(** What [timing] holds in the insights [ins] of the data [d]. *)
Definition best_timing (d : data) (ins : json) : Prop :=
  exists (h : Z) (day : string),
    get_path ["timing"; "best_hour"] ins = Some (JInt h) /\
    get_path ["timing"; "best_day"] ins = Some (JStr day) /\
    (exists p, In p (posts d) /\ post_hour p = Some h) /\
    (exists p, In p (posts d) /\ post_day p = Some day) /\
    (forall h', (exists p, In p (posts d) /\ post_hour p = Some h') ->
       (mean_upvotes (posts_at_hour d h') <= mean_upvotes (posts_at_hour d h))%Q /\
       ((h' < h)%Z ->
        (mean_upvotes (posts_at_hour d h') < mean_upvotes (posts_at_hour d h))%Q)) /\
    (forall day', (exists p, In p (posts d) /\ post_day p = Some day') ->
       (mean_upvotes (posts_on_day d day') <= mean_upvotes (posts_on_day d day))%Q /\
       (String.ltb day' day = true ->
        (mean_upvotes (posts_on_day d day') < mean_upvotes (posts_on_day d day))%Q)).

(** The upvotes column and the comment-count column each hold a value, and
    the network statistics hold finite floats only. *)
Definition numbers_finite (d : data) : bool :=
  negb (isna_all (map upvotes (posts d)))
  && negb (isna_all (map comment_count (posts d)))
  && finite_leaves (JObj (network_stats d)).

(** The record of a post as the top-posts aggregator exports it: the
    placeholders stand for what is missing. *)
Definition exported_post (p : post) : json :=
  JObj
    [ ("title",
        JStr (match title p with
              | Some t => if String.eqb t "" then "Untitled" else t
              | None => "Untitled"
              end));
      ("upvotes", JN (or_else 0%N (upvotes p)));
      ("comment_count", JN (or_else 0%N (comment_count p)));
      ("author_name", JStr (or_else "Unknown" (author_name p)));
      ("submolt_display_name", JStr (or_else "Unknown" (submolt_display_name p)));
      ("created_at", JStr (or_else "" (created_at p))) ].

(** A statistic of an author row, 0 when missing. *)
Definition stat_of (col : author_row -> option Q) (ir : nat * author_row) : Q :=
  or_else 0%Q (col (snd ir)).

Definition posts_of (ir : nat * author_row) : N :=
  or_else 0%N (total_posts (snd ir)).

(** Listed rows and the rest, together in the order [R]: the listed rows
    are in that order, and no row of the rest comes before a listed one;
    there is a rest only when the list is full. *)
Definition selects {A : Type} (R : A -> A -> Prop) (n : nat)
  (all listed : list A) : Prop :=
  exists rest,
    Permutation (listed ++ rest) all /\
    StronglySorted R (listed ++ rest) /\
    (rest <> [] -> List.length listed = n).

(** The posts of a submolt, a missing name read as "Unknown". *)
Definition submolt_of (p : post) : string :=
  or_else "Unknown" (submolt_display_name p).

Definition natsum (l : list nat) : nat := fold_right Nat.add 0 l.

(** The calendar date of a post, when it has a timestamp. *)
Definition post_date (p : post) : option string :=
  option_map dt_date (parsed (created_at p)).

(** A post that the time series count: it has an identifier and a
    timestamp. *)
Definition counted (p : post) : bool :=
  notna (post_id p) && notna (parsed (created_at p)).

Definition has_id (r : timed) : nat := if notna (post_id (fst r)) then 1 else 0.

(** What the daily series of the time series [ts] of [d] lists. *)
Definition daily_dates (d : data) (ts : json) : Prop :=
  exists (daily : list json) (dates : list string),
    get_field "daily_posts" ts = Some (JList daily) /\
    map (get_field "date") daily = map (fun s => Some (JStr s)) dates /\
    StronglySorted (fun a b => String.ltb a b = true) dates /\
    (forall dt, In dt dates <-> exists p, In p (posts d) /\ post_date p = Some dt).

(** The post counts of the three series of the time series [ts] of [d]
    each add up to the number of counted posts. *)
Definition series_counts (d : data) (ts : json) : Prop :=
  exists (daily hourly dow : list json) (cd ch cw : list nat) (as_float : bool),
    get_field "daily_posts" ts = Some (JList daily) /\
    get_field "hourly_pattern" ts = Some (JList hourly) /\
    get_field "day_of_week_pattern" ts = Some (JList dow) /\
    map (get_field "id") daily = map (fun c => Some (JNat c)) cd /\
    map (get_field "id") hourly = map (fun c => Some (JNat c)) ch /\
    map (get_field "id") dow
    = map (fun c => Some (int_or_float as_float (Z.of_nat c))) cw /\
    natsum cd = List.length (filter counted (posts d)) /\
    natsum ch = List.length (filter counted (posts d)) /\
    natsum cw = List.length (filter counted (posts d)).

(** The counts of the overview and of the insights of a document of [d]
    are the same numbers, and no count of distinct values exceeds the
    number of posts. *)
Definition counts_agree (d : data) (doc : json) : Prop :=
  exists n a s : nat,
    n = List.length (posts d) /\
    get_path ["overview"; "total_posts"] doc = Some (JNat n) /\
    get_path ["insights"; "content"; "total_posts"] doc = Some (JNat n) /\
    get_path ["overview"; "total_authors"] doc = Some (JNat a) /\
    get_path ["insights"; "authors"; "total"] doc = Some (JNat a) /\
    get_path ["overview"; "total_submolts"] doc = Some (JNat s) /\
    get_path ["insights"; "content"; "total_submolts"] doc = Some (JNat s) /\
    a <= n /\ s <= n.

(** The authors of the table [d] with at least 5 posts, a missing count
    read as 0. *)
Definition authors_with_5_posts (d : data) : list (nat * author_row) :=
  filter (fun ir => (5 <=? posts_of ir)%N) (author_stats d).

(** The count of active authors of a document of [d] is the number of
    these authors, and its two rankings of active authors each list that
    many entries, up to 20. *)
Definition active_rankings (d : data) (doc : json) : Prop :=
  exists (eng con : list json),
    get_path ["insights"; "authors"; "active_5plus"] doc
    = Some (JNat (List.length (authors_with_5_posts d))) /\
    get_path ["top_authors"; "by_engagement"] doc = Some (JList eng) /\
    get_path ["top_authors"; "by_consistency"] doc = Some (JList con) /\
    List.length eng = Nat.min 20 (List.length (authors_with_5_posts d)) /\
    List.length con = Nat.min 20 (List.length (authors_with_5_posts d)).

(** The three posts with the two authors of the samples, loaded. *)
Definition three_posts_data : data :=
  mk_data three_posts (range_index [sample_author; occasional_author]) [] [] [].

(** The hourly pattern of a document of [d] holds the mean upvotes of each
    hour, and the best hour of the insights is an hour of the pattern whose
    mean no other hour of the pattern exceeds. *)
Definition best_hour_in_pattern (d : data) (doc : json) : Prop :=
  exists (hourly : list json) (means : list (Z * Q)) (h : Z) (as_float : bool),
    get_path ["time_series"; "hourly_pattern"] doc = Some (JList hourly) /\
    get_path ["insights"; "timing"; "best_hour"] doc = Some (JInt h) /\
    map (get_field "hour") hourly
    = map (fun hm => Some (int_or_float as_float (fst hm))) means /\
    map (get_field "upvotes") hourly
    = map (fun hm => Some (JFloat (fin (snd hm)))) means /\
    (forall hm, In hm means -> snd hm = mean_upvotes (posts_at_hour d (fst hm))) /\
    In (h, mean_upvotes (posts_at_hour d h)) means /\
    (forall hm, In hm means -> (snd hm <= mean_upvotes (posts_at_hour d h))%Q).

(** The inputs with the bridge-author file, or the network-statistics
    file, taken away. *)
Definition without_bridge_authors (fs : files) : files :=
  mk_files (posts_latest_csv fs) (author_stats_csv fs) (cross_posters_json fs)
           None (network_stats_json fs).

Definition without_network_stats (fs : files) : files :=
  mk_files (posts_latest_csv fs) (author_stats_csv fs) (cross_posters_json fs)
           (bridge_authors_json fs) None.

Definition no_bridge_authors (d : data) : data :=
  mk_data (posts d) (author_stats d) (cross_posters d) [] (network_stats d).

Definition no_network_stats (d : data) : data :=
  mk_data (posts d) (author_stats d) (cross_posters d) (bridge_authors d) [].


(** ** Scores and totals *)

(** The order of Python's numbers; NaN is not comparable. *)
Definition float_le (x y : pyfloat) : Prop :=
  match x, y with
  | PNaN, _ => False
  | _, PNaN => False
  | PInf true, _ => True
  | _, PInf false => True
  | PFin a, PFin b => (a <= b)%Q
  | _, _ => False
  end.

(** No score of the mapping is NaN. *)
Definition no_nan_score (b : pydict pyfloat) : Prop :=
  forall kv, In kv b -> snd kv <> PNaN.

(** A bridge mapping of at most 20 authors, all of them listed then, with
    a score that is NaN or infinite. *)
Definition bridge_score_not_finite (d : data) : Prop :=
  List.length (bridge_authors d) <= 20 /\
  exists kv, In kv (bridge_authors d) /\ is_finite (snd kv) = false.


(** A table with no post that has a timestamp. *)
Definition no_timestamp (d : data) : Prop :=
  forall p, In p (posts d) -> created_at p = None.

(** One post without a timestamp, and the files that hold it. *)
Definition undated_post : post :=
  mk_post (Some "p1") (Some "Hello") (Some "alice") (Some "general")
          (Some 10%N) (Some 1%N) None None.

Definition undated_files : files :=
  mk_files (Some [undated_post]) (Some [sample_author]) None None None.

(** An author-statistics file with its header line only. *)
Definition empty_authors_files : files :=
  mk_files (Some [sample_post]) (Some []) None None None.

(** Three bridge authors, one of them with an infinite score. *)
Definition bridge_data : data :=
  mk_data [sample_post] (range_index [sample_author]) []
          [("a", PFin (1 # 2)%Q); ("b", PInf false); ("c", PFin 2%Q)] [].

(** * Properties *)

(** ** Lists *)

Lemma StronglySorted_app_intro {A : Type} (R : A -> A -> Prop) (l1 l2 : list A) :
  StronglySorted R l1 -> StronglySorted R l2 ->
  (forall x y, In x l1 -> In y l2 -> R x y) ->
  StronglySorted R (l1 ++ l2).
Proof.
  induction l1 as [|a l1 IH]; simpl; intros H1 H2 H12; auto.
  inversion H1; subst. constructor.
  - apply IH; auto.
  - apply Forall_app. split; auto.
    apply Forall_forall. intros y Hy. apply H12; auto.
Qed.

Lemma StronglySorted_app_cross {A : Type} (R : A -> A -> Prop) (l1 l2 : list A) :
  StronglySorted R (l1 ++ l2) -> forall x y, In x l1 -> In y l2 -> R x y.
Proof.
  induction l1 as [|a l1 IH]; simpl; intros H x y Hx Hy; [contradiction|].
  inversion H; subst. destruct Hx as [->|Hx].
  - rewrite Forall_forall in H3. apply H3, in_or_app. now right.
  - eapply IH; eauto.
Qed.

Lemma StronglySorted_firstn {A : Type} (R : A -> A -> Prop) (n : nat) (l : list A) :
  StronglySorted R l -> StronglySorted R (firstn n l).
Proof.
  intros H. rewrite <- (firstn_skipn n l) in H.
  revert H. generalize (firstn n l) (skipn n l). intros front back.
  induction front as [|a front IH]; simpl; intros H; [constructor|].
  inversion H as [|? ? Htail Hhead]; subst. constructor; [now apply IH|].
  apply Forall_app in Hhead. tauto.
Qed.

Lemma StronglySorted_map {A B : Type} (R : B -> B -> Prop) (f : A -> B) (l : list A) :
  StronglySorted (fun x y => R (f x) (f y)) l -> StronglySorted R (map f l).
Proof.
  induction 1; simpl; constructor; auto.
  rewrite Forall_map. assumption.
Qed.

Lemma StronglySorted_impl {A : Type} (R S : A -> A -> Prop) (l : list A) :
  (forall x y, R x y -> S x y) -> StronglySorted R l -> StronglySorted S l.
Proof.
  intros HRS. induction 1; constructor; auto.
  eapply Forall_impl; [|eassumption]. auto.
Qed.

Lemma In_firstn {A : Type} (n : nat) (l : list A) (x : A) :
  In x (firstn n l) -> In x l.
Proof.
  intros H. rewrite <- (firstn_skipn n l). apply in_or_app. now left.
Qed.

(** ** Stable sorting *)

Section StableSortFacts.
Context {A : Type} (before : A -> A -> bool).

Lemma insert_stable_perm (x : A) (l : list A) :
  Permutation (insert_stable before x l) (x :: l).
Proof.
  induction l as [|y l IH]; simpl; [reflexivity|].
  destruct (before x y); [reflexivity|].
  rewrite IH. apply perm_swap.
Qed.

Lemma stable_sort_perm (l : list A) : Permutation (stable_sort before l) l.
Proof.
  induction l as [|x l IH]; simpl; [reflexivity|].
  rewrite insert_stable_perm. now constructor.
Qed.

Lemma stable_sort_In (l : list A) (x : A) :
  In x (stable_sort before l) <-> In x l.
Proof.
  split; apply Permutation_in; [|symmetry]; apply stable_sort_perm.
Qed.

Lemma stable_sort_length (l : list A) :
  List.length (stable_sort before l) = List.length l.
Proof. apply Permutation_length, stable_sort_perm. Qed.

(** The order [R] read off [before] on the elements that satisfy [P]. *)
Variables (P : A -> Prop) (R : A -> A -> Prop).
Hypothesis before_R : forall x y, P x -> P y -> before x y = true -> R x y.
Hypothesis total_R : forall x y, P x -> P y -> before x y = false -> R y x.
Hypothesis trans_R : forall x y z, P x -> P y -> P z -> R x y -> R y z -> R x z.

Lemma insert_stable_sorted (x : A) (l : list A) :
  P x -> Forall P l -> StronglySorted R l ->
  StronglySorted R (insert_stable before x l).
Proof.
  intros Px. induction l as [|y l IH]; simpl; intros HP HS.
  - repeat constructor.
  - inversion HP; subst. inversion HS; subst.
    destruct (before x y) eqn:E.
    + constructor; [assumption|]. constructor; [now apply before_R|].
      rewrite Forall_forall in *. intros z Hz.
      apply trans_R with y; auto.
    + constructor; [now apply IH|].
      rewrite Forall_forall in *. intros z Hz.
      apply (Permutation_in _ (insert_stable_perm x l)) in Hz.
      destruct Hz as [<-|Hz]; auto.
Qed.

Lemma stable_sort_sorted (l : list A) :
  Forall P l -> StronglySorted R (stable_sort before l).
Proof.
  induction l as [|x l IH]; simpl; intros HP; [constructor|].
  inversion HP as [|? ? Px HPl]; subst. apply insert_stable_sorted.
  - exact Px.
  - apply Forall_forall. intros z Hz. apply -> stable_sort_In in Hz.
    rewrite Forall_forall in HPl. now apply HPl.
  - apply IH, HPl.
Qed.
End StableSortFacts.

(** Sorting commutes with a map that respects the order. *)
Lemma stable_sort_map {A B : Type} (bA : A -> A -> bool) (bB : B -> B -> bool)
  (f : A -> B) (l : list A) :
  (forall x y, bB (f x) (f y) = bA x y) ->
  stable_sort bB (map f l) = map f (stable_sort bA l).
Proof.
  intros Hf. induction l as [|x l IH]; simpl; [reflexivity|].
  rewrite IH. generalize (stable_sort bA l). intros s.
  induction s as [|y s IHs]; simpl; [reflexivity|].
  rewrite Hf. destruct (bA x y); simpl; [reflexivity|]. now rewrite IHs.
Qed.

(** ** nlargest *)

Section NLargestFacts.
Context {A K : Type} (leb : K -> K -> bool) (col : A -> option K).

Lemma filter_notna_isna_length (rows : list A) :
  List.length (filter (fun r => notna (col r)) rows)
  + List.length (filter (fun r => isna (col r)) rows) = List.length rows.
Proof.
  induction rows as [|r rows IH]; simpl; [reflexivity|].
  unfold isna in *. destruct (notna (col r)); simpl; lia.
Qed.

Lemma nlargest_length (n : nat) (rows : list A) :
  List.length (nlargest leb col n rows) = Nat.min n (List.length rows).
Proof.
  unfold nlargest. rewrite length_firstn, length_app, stable_sort_length.
  now rewrite filter_notna_isna_length.
Qed.

Lemma nlargest_In (n : nat) (rows : list A) (x : A) :
  In x (nlargest leb col n rows) -> In x rows.
Proof.
  unfold nlargest. intros H. apply In_firstn in H.
  apply in_app_or in H. destruct H as [H|H].
  - apply (proj1 (stable_sort_In _ _ _)) in H. apply filter_In in H. tauto.
  - apply filter_In in H. tauto.
Qed.
End NLargestFacts.

Lemma nlargest_upvotes_sorted (n : nat) (rows : list post) :
  StronglySorted (fun x y => (exported_upvotes y <= exported_upvotes x)%N)
                 (nlargest N.leb upvotes n rows).
Proof.
  unfold nlargest. apply StronglySorted_firstn. apply StronglySorted_app_intro.
  - apply stable_sort_sorted with (P := fun r => notna (upvotes r) = true).
    + intros x y Hx Hy. unfold col_desc, exported_upvotes.
      destruct (upvotes x), (upvotes y); try discriminate. simpl.
      intros H. now apply N.leb_le.
    + intros x y Hx Hy. unfold col_desc, exported_upvotes.
      destruct (upvotes x), (upvotes y); try discriminate. simpl.
      intros H. apply N.leb_gt in H. lia.
    + intros x y z _ _ _. lia.
    + apply Forall_forall. intros x Hx. apply filter_In in Hx. tauto.
  - induction rows as [|r rows IH]; simpl; [constructor|].
    destruct (isna (upvotes r)) eqn:E; [|assumption].
    constructor; [assumption|].
    apply Forall_forall. intros y Hy. apply filter_In in Hy.
    destruct Hy as [_ Hy]. unfold exported_upvotes.
    destruct (upvotes y); [discriminate|]. simpl. lia.
  - intros x y _ Hy. apply filter_In in Hy. destruct Hy as [_ Hy].
    unfold exported_upvotes. destruct (upvotes y); [discriminate|]. simpl. lia.
Qed.

Lemma top_post_record_upvotes (p : post) :
  get_field "upvotes" (top_post_record p) = Some (JInt (Z.of_N (exported_upvotes p))).
Proof. reflexivity. Qed.

(** ** Top posts *)

(** C6.  For every posts table the top-posts aggregator either returns a
    list of at most min(20, number of posts) records whose upvotes are in
    descending order, or the table has no rows (and [nlargest] refuses its
    column). *)
Theorem top_posts_bounded_sorted (d : data) :
  match export_top_posts d 20 with
  | Ok j =>
      exists (recs : list json) (ups : list Z),
        j = JList recs /\
        List.length recs <= Nat.min 20 (List.length (posts d)) /\
        map (get_field "upvotes") recs = map (fun u => Some (JInt u)) ups /\
        StronglySorted (fun a b => (b <= a)%Z) ups
  | Raise _ => posts d = []
  end.
Proof.
  unfold export_top_posts, check_nlargest_dtype.
  destruct (posts d) as [|p ps] eqn:Hp; simpl; [reflexivity|].
  exists (map top_post_record (top_posts_rows d 20)).
  exists (map (fun p => Z.of_N (exported_upvotes p)) (top_posts_rows d 20)).
  split; [reflexivity|]. split; [|split].
  - unfold top_posts_rows. rewrite length_map, nlargest_length, length_map, Hp.
    reflexivity.
  - rewrite !map_map. apply map_ext. intros a. apply top_post_record_upvotes.
  - apply StronglySorted_map. unfold top_posts_rows.
    eapply StronglySorted_impl; [|apply nlargest_upvotes_sorted].
    intros x y H. simpl in H. lia.
Qed.

(** The bound of C6 is reached: no post is left out while there is room. *)
Lemma top_posts_rows_length (d : data) (n : nat) :
  List.length (top_posts_rows d n) = Nat.min n (List.length (posts d)).
Proof. unfold top_posts_rows. now rewrite nlargest_length, length_map. Qed.

(** ** Top authors *)

Lemma fillna0_stats_In (t : list (nat * author_row)) (x : nat * author_row) :
  In x (fillna0_stats t) ->
  exists r, In (fst x, r) t /\ snd x = fillna0_author r.
Proof.
  unfold fillna0_stats. intros H. apply in_map_iff in H.
  destruct H as [[i r] [<- H]]. exists r. simpl. auto.
Qed.

Lemma active_authors_In (t : list (nat * author_row)) (x : nat * author_row) :
  In x (active_authors (fillna0_stats t)) ->
  exists r, In (fst x, r) t /\ snd x = fillna0_author r
            /\ (5 <= or_else 0 (total_posts r))%N.
Proof.
  unfold active_authors. intros H. apply filter_In in H. destruct H as [H H5].
  apply fillna0_stats_In in H. destruct H as [r [Hr Hx]].
  exists r. repeat split; auto.
  unfold at_least_5_posts in H5. rewrite Hx in H5. simpl in H5.
  destruct (total_posts r); simpl in *; now apply N.leb_le.
Qed.

Lemma fillna0_total_posts (r : author_row) :
  count_cell (total_posts (fillna0_author r)) = JN (or_else 0%N (total_posts r)).
Proof. destruct r as [a [n|] ? ? ? ? ? ?]; reflexivity. Qed.

(** C7.  For every author-statistics table with rows, each entry of
    [by_engagement] and of [by_consistency] is the entry of a row of the
    table whose total post count, 0 when missing, is at least 5, and reports
    that count; [by_posts] ranks all the rows of the table, whatever their
    count.  A table without rows makes [nlargest] raise. *)
Theorem top_authors_activity_filter (d : data) :
  match export_top_authors d 20 with
  | Ok j =>
      exists eng pst con : list json,
        j = JObj [ ("by_engagement", JList eng); ("by_posts", JList pst);
                   ("by_consistency", JList con) ] /\
        (forall e, In e (eng ++ con) ->
           exists i r,
             In (i, r) (author_stats d) /\
             get_field "name" e = Some (JStr (str_of_nat i)) /\
             get_field "total_posts" e = Some (JN (or_else 0%N (total_posts r))) /\
             (5 <= or_else 0%N (total_posts r))%N) /\
        List.length pst = Nat.min 20 (List.length (author_stats d)) /\
        (forall e, In e pst ->
           exists i r,
             In (i, r) (author_stats d) /\
             get_field "name" e = Some (JStr (str_of_nat i)) /\
             get_field "total_posts" e = Some (JN (or_else 0%N (total_posts r))))
  | Raise _ => author_stats d = []
  end.
Proof.
  unfold export_top_authors, check_nlargest_dtype.
  destruct (numeric_dtype (author_stats d)) eqn:Hn; simpl;
    [|destruct (author_stats d); [reflexivity|discriminate Hn]].
  exists (map engagement_entry (by_engagement_rows d 20)),
         (map posts_entry (by_posts_rows d 20)),
         (map consistency_entry (by_consistency_rows d 20)).
  split; [reflexivity|]. split; [|split].
  - intros e He. apply in_app_or in He.
    destruct He as [He|He]; apply in_map_iff in He;
      destruct He as [x [<- Hx]]; apply nlargest_In in Hx;
      apply active_authors_In in Hx; destruct Hx as [r [Hr [Hx H5]]];
      exists (fst x), r; (split; [exact Hr|split; [reflexivity|split; [|exact H5]]]).
    + unfold engagement_entry. cbn [get_field assoc String.eqb Ascii.eqb Bool.eqb].
      rewrite Hx. now rewrite fillna0_total_posts.
    + unfold consistency_entry. cbn [get_field assoc String.eqb Ascii.eqb Bool.eqb].
      rewrite Hx. now rewrite fillna0_total_posts.
  - unfold by_posts_rows, fillna0_stats.
    now rewrite length_map, nlargest_length, length_map.
  - intros e He. apply in_map_iff in He. destruct He as [x [<- Hx]].
    apply nlargest_In in Hx. apply fillna0_stats_In in Hx.
    destruct Hx as [r [Hr Hx]]. exists (fst x), r.
    split; [exact Hr|split; [reflexivity|]].
    unfold posts_entry. cbn [get_field assoc String.eqb Ascii.eqb Bool.eqb].
    rewrite Hx. now rewrite fillna0_total_posts.
Qed.

(** ** Dictionaries *)

Lemma assoc_set_keys {V : Type} (k : string) (v : V) (l : list (string * V)) (k' : string) :
  In k' (map fst (assoc_set k v l)) <-> k' = k \/ In k' (map fst l).
Proof.
  induction l as [|[k0 v0] l IH]; simpl.
  - intuition congruence.
  - destruct (String.eqb_spec k k0) as [->|Hne]; simpl;
      [intuition congruence|].
    rewrite IH. intuition congruence.
Qed.

Lemma assoc_set_NoDup {V : Type} (k : string) (v : V) (l : list (string * V)) :
  NoDup (map fst l) -> NoDup (map fst (assoc_set k v l)).
Proof.
  induction l as [|[k0 v0] l IH]; simpl; intros H.
  - constructor; [tauto|constructor].
  - inversion H; subst.
    destruct (String.eqb_spec k k0) as [->|Hne]; simpl.
    + now constructor.
    + constructor; [|now apply IH].
      rewrite assoc_set_keys. intros [->|Hin]; [now apply Hne|contradiction].
Qed.

(** The keys of a loaded object are distinct. *)
Lemma json_load_object_NoDup {V : Type} (members : list (string * V)) :
  NoDup (map fst (json_load_object members)).
Proof.
  unfold json_load_object.
  assert (H : forall acc : pydict V, NoDup (map fst acc) ->
            NoDup (map fst (fold_left (fun d kv => dict_set (fst kv) (snd kv) d)
                                      members acc))).
  { induction members as [|kv members IH]; simpl; intros acc Hacc; [assumption|].
    apply IH. now apply assoc_set_NoDup. }
  apply H. constructor.
Qed.

Lemma assoc_In_NoDup {V : Type} (l : list (string * V)) (k : string) (v : V) :
  NoDup (map fst l) -> In (k, v) l -> assoc k l = Some v.
Proof.
  induction l as [|[k0 v0] l IH]; simpl; intros Hnd Hin; [contradiction|].
  inversion Hnd; subst. destruct Hin as [Heq|Hin].
  - inversion Heq; subst. now rewrite String.eqb_refl.
  - destruct (String.eqb_spec k k0) as [->|Hne]; [|now apply IH].
    exfalso. apply H1. apply in_map_iff. exists (k0, v). auto.
Qed.

(** ** Cross-posters *)

Lemma cross_poster_counts_sorted (cp : pydict (list string)) :
  cross_poster_counts cp
  = map (fun kv => (fst kv, List.length (snd kv))) (stable_sort by_list_length cp).
Proof.
  unfold cross_poster_counts. apply stable_sort_map. reflexivity.
Qed.

Lemma cross_poster_entries (cp : pydict (list string)) (l : list (string * list string)) :
  NoDup (map fst cp) -> incl l cp ->
  mapM (cross_poster_entry cp) (map (fun kv => (fst kv, List.length (snd kv))) l)
  = Ok (map cross_poster_record l).
Proof.
  intros Hnd. induction l as [|[a subs] l IH]; simpl; intros Hin; [reflexivity|].
  unfold cross_poster_entry at 1, dict_item, dict_get. simpl.
  rewrite (assoc_In_NoDup cp a subs Hnd) by (apply Hin; now left). simpl.
  rewrite IH by (intros x Hx; apply Hin; now right). reflexivity.
Qed.

Lemma filter_all_true {A : Type} (f : A -> bool) (l : list A) :
  (forall x, In x l -> f x = true) -> filter f l = l.
Proof.
  induction l as [|x l IH]; simpl; intros H; [reflexivity|].
  rewrite H by now left. f_equal. apply IH. intros y Hy. apply H. now right.
Qed.

Lemma dedup_NoDup (l : list string) : NoDup l -> dedup String.eqb l = l.
Proof.
  induction 1 as [|x l Hx Hnd IH]; simpl; [reflexivity|].
  rewrite IH. f_equal. apply filter_all_true.
  intros y Hy. destruct (String.eqb_spec x y) as [->|]; [contradiction|reflexivity].
Qed.

(** On a list that names each submolt once the two counts agree. *)
Lemma distinct_count_NoDup (l : list string) :
  NoDup l -> distinct_count l = List.length l.
Proof. intros H. unfold distinct_count. now rewrite dedup_NoDup. Qed.

Lemma top_cross_posters_sorted (cp : pydict (list string)) :
  NoDup (map fst cp) ->
  top_cross_posters cp
  = Ok (map cross_poster_record (firstn 20 (stable_sort by_list_length cp))).
Proof.
  intros Hnd. unfold top_cross_posters.
  rewrite cross_poster_counts_sorted, firstn_map.
  apply cross_poster_entries; [exact Hnd|].
  intros x Hx. apply In_firstn in Hx.
  now apply (proj1 (stable_sort_In _ _ _)) in Hx.
Qed.

(** C5, as the code has it.  For every cross-poster mapping the network
    aggregator returns, under [top_cross_posters], the records of at most 20
    members of the mapping, in descending order of the length of the
    author's submolt list; each record holds the author, that length and the
    first 5 names of the list in their order; and no member left out has a
    longer list than a listed one. *)
Theorem top_cross_posters_ranked
  (ps : list post) (st : list (nat * author_row))
  (members : list (string * list string)) (b : pydict pyfloat) (ns : pydict json) :
  let cp := json_load_object members in
  exists (net : json) (ranked : list (string * list string)),
    export_network_data (mk_data ps st cp b ns) = Ok net /\
    get_field "top_cross_posters" net = Some (JList (map cross_poster_record ranked)) /\
    List.length ranked <= 20 /\
    incl ranked cp /\
    StronglySorted
      (fun x y => List.length (snd y) <= List.length (snd x)) ranked /\
    (forall kv, In kv cp ->
       In kv ranked \/
       (List.length ranked = 20 /\
        Forall (fun x => List.length (snd kv) <= List.length (snd x)) ranked)).
Proof.
  intros cp.
  set (sorted := stable_sort by_list_length cp).
  assert (Hsorted : StronglySorted
            (fun x y => List.length (snd y) <= List.length (snd x)) sorted).
  { apply stable_sort_sorted with (P := fun _ => True).
    - intros x y _ _ H. now apply Nat.leb_le in H.
    - intros x y _ _ H. unfold by_list_length, desc_by in H.
      apply Nat.leb_gt in H. lia.
    - intros x y z _ _ _. lia.
    - apply Forall_forall. auto. }
  assert (Hincl : incl (firstn 20 sorted) cp).
  { intros x Hx. apply In_firstn in Hx.
    now apply (proj1 (stable_sort_In _ _ _)) in Hx. }
  assert (Htop : top_cross_posters cp = Ok (map cross_poster_record (firstn 20 sorted)))
    by apply top_cross_posters_sorted, json_load_object_NoDup.
  eexists. exists (firstn 20 sorted).
  split; [unfold export_network_data; simpl; rewrite Htop; reflexivity|].
  split; [reflexivity|]. split; [apply firstn_le_length|].
  split; [exact Hincl|]. split; [now apply StronglySorted_firstn|].
  intros kv Hkv. apply (proj2 (stable_sort_In by_list_length cp kv)) in Hkv.
  fold sorted in Hkv. rewrite <- (firstn_skipn 20 sorted) in Hkv.
  apply in_app_or in Hkv. destruct Hkv as [Hkv|Hkv]; [now left|right].
  split.
  - rewrite length_firstn. destruct (Nat.le_gt_cases 20 (List.length sorted)) as [|Hlt]; [lia|].
    rewrite skipn_all2 in Hkv by lia. contradiction.
  - apply Forall_forall. intros x Hx.
    rewrite <- (firstn_skipn 20 sorted) in Hsorted.
    exact (StronglySorted_app_cross _ _ Hsorted x kv Hx Hkv).
Qed.

(** A mapping whose first list repeats a name: the author is listed with
    the length of the list, 3, not with the single submolt it names. *)
Lemma cross_posters_not_by_distinct :
  let cp := json_load_object [ ("a", ["x"; "x"; "x"]); ("b", ["y"; "z"]) ] in
  exists out, top_cross_posters cp = Ok out /\ ~ ranked_by_distinct cp out.
Proof.
  eexists. split; [vm_compute; reflexivity|].
  intros [ranked [Hout [_ [Hincl _]]]].
  destruct ranked as [|kv ranked]; [discriminate Hout|].
  assert (Hin : In kv (json_load_object [ ("a", ["x"; "x"; "x"]); ("b", ["y"; "z"]) ]))
    by (apply Hincl; now left).
  apply (f_equal (fun l => get_field "submolt_count" (hd JNull l))) in Hout.
  vm_compute in Hin.
  destruct Hin as [<-|[<-|[]]]; vm_compute in Hout; discriminate Hout.
Qed.

(** ** Grouping *)

Section GroupByFacts.
Context {A K : Type} (eqb leb : K -> K -> bool) (key : A -> option K).
Hypothesis eqb_eq : forall x y, eqb x y = true <-> x = y.

Lemma dedup_In (l : list K) (x : K) : In x (dedup eqb l) <-> In x l.
Proof.
  induction l as [|a l IH]; simpl; [tauto|].
  rewrite filter_In, IH. split.
  - tauto.
  - intros [->|Hx]; [now left|].
    destruct (eqb a x) eqn:E; [left; now apply eqb_eq|right; auto].
Qed.

Lemma NoDup_dedup (l : list K) : NoDup (dedup eqb l).
Proof.
  induction l as [|a l IH]; simpl; constructor.
  - rewrite filter_In. intros [_ H].
    rewrite (proj2 (eqb_eq a a) eq_refl) in H. discriminate H.
  - now apply NoDup_filter.
Qed.

Lemma dropna_In (col : list (option K)) (x : K) :
  In x (dropna col) <-> In (Some x) col.
Proof.
  induction col as [|[y|] col IH]; simpl; [tauto| |].
  - rewrite IH. intuition congruence.
  - rewrite IH. intuition congruence.
Qed.

Lemma group_keys_In (rows : list A) (k : K) :
  In k (group_keys eqb leb key rows) <-> exists r, In r rows /\ key r = Some k.
Proof.
  unfold group_keys. rewrite stable_sort_In, dedup_In, dropna_In, in_map_iff.
  split; intros [r Hr]; exists r; tauto.
Qed.

Lemma group_keys_NoDup (rows : list A) : NoDup (group_keys eqb leb key rows).
Proof.
  unfold group_keys.
  eapply Permutation_NoDup; [symmetry; apply stable_sort_perm|apply NoDup_dedup].
Qed.

Lemma groupby_keys (rows : list A) :
  map fst (groupby eqb leb key rows) = group_keys eqb leb key rows.
Proof. unfold groupby. rewrite map_map. simpl. apply map_id. Qed.
End GroupByFacts.

(** A group is looked up by its name exactly when the name is a key. *)
Lemma assoc_keyed {V : Type} (f : string -> V) (ks : list string) (k : string) :
  assoc k (map (fun k' => (k', f k')) ks)
  = if existsb (String.eqb k) ks then Some (f k) else None.
Proof.
  induction ks as [|k0 ks IH]; simpl; [reflexivity|].
  destruct (String.eqb_spec k k0) as [->|Hne]; simpl; [reflexivity|exact IH].
Qed.

Lemma groupby_assoc_None {A : Type} (key : A -> option string) (rows : list A) (k : string) :
  (forall r, In r rows -> key r <> Some k) ->
  assoc k (groupby String.eqb String.leb key rows) = None.
Proof.
  intros H. unfold groupby. rewrite assoc_keyed.
  destruct (existsb (String.eqb k) (group_keys String.eqb String.leb key rows)) eqn:E;
    [|reflexivity].
  apply existsb_exists in E. destruct E as [k' [Hin Heq]].
  apply String.eqb_eq in Heq. subst k'.
  apply (group_keys_In String.eqb String.leb key String.eqb_eq) in Hin.
  destruct Hin as [r [Hr Hk]]. now apply H in Hr.
Qed.

(** ** Ascending integers *)

Lemma StronglySorted_le_lt (l : list Z) :
  StronglySorted Z.le l -> NoDup l -> StronglySorted Z.lt l.
Proof.
  induction 1 as [|a l HS IH Hall]; intros Hnd; constructor.
  - apply IH. now inversion Hnd.
  - inversion Hnd; subst. rewrite Forall_forall in *. intros x Hx.
    specialize (Hall x Hx). assert (a <> x) by (intros ->; contradiction). lia.
Qed.

Lemma ascending_length (l : list Z) (lo hi : Z) :
  StronglySorted Z.lt l -> Forall (fun h => (lo <= h < hi)%Z) l -> (lo <= hi)%Z ->
  (Z.of_nat (List.length l) <= hi - lo)%Z.
Proof.
  intros HS. revert lo. induction HS as [|a l HS IH Hall]; intros lo Hr Hle.
  - simpl. lia.
  - inversion Hr; subst.
    assert (H : (Z.of_nat (List.length l) <= hi - (a + 1))%Z).
    { apply IH; [|lia]. rewrite Forall_forall in *. intros x Hx.
      specialize (Hall x Hx). specialize (H2 x Hx). lia. }
    simpl List.length. lia.
Qed.

Lemma group_keys_ascending {A : Type} (key : A -> option Z) (rows : list A) :
  StronglySorted Z.lt (group_keys Z.eqb Z.leb key rows).
Proof.
  apply StronglySorted_le_lt; [|apply group_keys_NoDup, Z.eqb_eq].
  unfold group_keys. apply stable_sort_sorted with (P := fun _ => True).
  - intros x y _ _ H. now apply Z.leb_le.
  - intros x y _ _ H. unfold asc_by in H. apply Z.leb_gt in H. lia.
  - intros x y z _ _ _. lia.
  - apply Forall_forall. auto.
Qed.

(** ** Timestamps *)

Lemma digits_nonneg (s : string) (acc v : Z) :
  digits s acc = Some v -> (0 <= acc)%Z -> (0 <= v)%Z.
Proof.
  revert acc. induction s as [|c s IH]; simpl; intros acc H Hacc.
  - now inversion H; subst.
  - destruct (digit c) as [w|] eqn:Hd; [|discriminate].
    assert (Hw : (0 <= w)%Z).
    { unfold digit in Hd.
      destruct ((48 <=? nat_of_ascii c)%nat && (nat_of_ascii c <=? 57)%nat);
        inversion Hd; subst. apply Nat2Z.is_nonneg. }
    apply (IH (10 * acc + w)%Z); [assumption|lia].
Qed.

Lemma field_nonneg (off len : nat) (s : string) (v : Z) :
  field off len s = Some v -> (0 <= v)%Z.
Proof.
  unfold field. destruct (String.length (substring off len s) =? len)%nat;
    [|discriminate].
  intros H. apply digits_nonneg in H; lia.
Qed.

Lemma to_datetime_hour (s : string) (t : datetime) :
  to_datetime s = Ok t -> (0 <= dt_hour t <= 23)%Z.
Proof.
  unfold to_datetime.
  destruct (field 0 4 s) as [y|]; [|discriminate].
  destruct (field 5 2 s) as [m|]; [|discriminate].
  destruct (field 8 2 s) as [dd|]; [|discriminate].
  match goal with |- (if ?c then _ else _) = _ -> _ => destruct c end;
    [|discriminate].
  destruct (String.length s =? 10)%nat.
  - intros H. inversion H; subst. simpl. lia.
  - destruct (field 11 2 s) as [h|] eqn:Hh; [|discriminate].
    destruct (field 14 2 s) as [mi|]; [|discriminate].
    destruct (field 17 2 s) as [se|]; [|discriminate].
    match goal with |- (if ?c then _ else _) = _ -> _ => destruct c eqn:Hc end;
      [|discriminate].
    intros H. inversion H; subst. simpl.
    apply field_nonneg in Hh.
    repeat (apply andb_prop in Hc; destruct Hc as [Hc ?]).
    split; [assumption|]. now apply Z.leb_le.
Qed.

Lemma mapM_to_datetime (cells : list (option string)) (ts : list (option datetime)) :
  mapM to_datetime_cell cells = Ok ts -> ts = map parsed cells.
Proof.
  revert ts. induction cells as [|c cells IH]; simpl; intros ts H.
  - now inversion H.
  - destruct c as [s|]; simpl in *.
    + destruct (to_datetime s) as [t|e]; simpl in H; [|discriminate].
      destruct (mapM to_datetime_cell cells) as [ts'|e]; simpl in H; [|discriminate].
      inversion H; subst. f_equal. now apply IH.
    + destruct (mapM to_datetime_cell cells) as [ts'|e]; simpl in H; [|discriminate].
      inversion H; subst. f_equal. now apply IH.
Qed.

Lemma with_timestamps_rows (df : list post) (rows : list timed) :
  with_timestamps df = Ok rows ->
  rows = map (fun p => (p, parsed (created_at p))) df.
Proof.
  unfold with_timestamps.
  destruct (mapM to_datetime_cell (map created_at df)) as [ts|e] eqn:E;
    simpl; [|discriminate].
  intros H. inversion H; subst. apply mapM_to_datetime in E. subst ts.
  clear. induction df as [|p df IH]; simpl; [reflexivity|]. now rewrite IH.
Qed.

Lemma dashboard_data_sections (d : data) (now : string) (doc : json) :
  dashboard_data d now = Ok doc ->
  exists tp ta ts net ins,
    export_top_posts d 20 = Ok tp /\
    export_top_authors d 20 = Ok ta /\
    export_time_series d = Ok ts /\
    export_network_data d = Ok net /\
    export_insights d = Ok ins /\
    doc = JObj [ ("generated_at", JStr now);
                 ("overview", export_overview_stats d);
                 ("top_posts", tp);
                 ("top_authors", ta);
                 ("top_submolts", export_submolt_stats d 30);
                 ("time_series", ts);
                 ("network", net);
                 ("insights", ins) ].
Proof.
  unfold dashboard_data.
  destruct (export_top_posts d 20) as [tp|]; simpl; [|discriminate].
  destruct (export_top_authors d 20) as [ta|]; simpl; [|discriminate].
  destruct (export_time_series d) as [ts|]; simpl; [|discriminate].
  destruct (export_network_data d) as [net|]; simpl; [|discriminate].
  destruct (export_insights d) as [ins|]; simpl; [|discriminate].
  intros H. inversion H. exists tp, ta, ts, net, ins. repeat split.
Qed.

(** ** Time series *)

Lemma time_series_rows (d : data) (ts : json) :
  export_time_series d = Ok ts ->
  let rows := map (fun p => (p, parsed (created_at p))) (map fill_upvotes (posts d)) in
  ts = JObj [ ("daily_posts",
                JList (map (daily_record (existsb isna (map upvotes (posts d))))
                           (by_date rows)));
              ("hourly_pattern", JList (hourly_pattern d rows));
              ("day_of_week_pattern", JList (day_of_week_pattern rows)) ].
Proof.
  unfold export_time_series.
  destruct (with_timestamps (map fill_upvotes (posts d))) as [rows|e] eqn:E;
    simpl; [|discriminate].
  apply with_timestamps_rows in E. subst rows. intros H. now inversion H.
Qed.

Lemma hour_key_posts (d : data) (h : Z) :
  (exists r, In r (map (fun p => (p, parsed (created_at p)))
                       (map fill_upvotes (posts d)))
             /\ hour_key r = Some h)
  <-> exists p, In p (posts d) /\ post_hour p = Some h.
Proof.
  split.
  - intros [r [Hr Hh]]. apply in_map_iff in Hr. destruct Hr as [p' [<- Hp']].
    apply in_map_iff in Hp'. destruct Hp' as [p [<- Hp]]. exists p. auto.
  - intros [p [Hp Hh]]. exists (fill_upvotes p, parsed (created_at p)).
    split; [|exact Hh].
    apply in_map_iff. exists (fill_upvotes p). split; [reflexivity|].
    now apply in_map.
Qed.

Lemma day_record_name (f : bool) (groups : list (string * list timed)) (day : string) :
  get_field "day_of_week" (day_record f groups day) = Some (JStr day).
Proof. unfold day_record. destruct (assoc day groups); reflexivity. Qed.

Lemma day_of_week_pattern_rows (rows : list timed) :
  rows <> [] ->
  day_of_week_pattern rows
  = map (day_record (existsb (fun day => isna (assoc day (by_day rows))) day_order)
                    (by_day rows))
        day_order.
Proof. destruct rows; [congruence|reflexivity]. Qed.

Lemma top_posts_need_rows (d : data) (n : nat) (tp : json) :
  export_top_posts d n = Ok tp -> posts d <> [].
Proof.
  unfold export_top_posts, check_nlargest_dtype.
  destruct (posts d); simpl; [discriminate|]. intros _. discriminate.
Qed.

(** C2, as the code has it.  In every document the pipeline produces,
    [time_series.hourly_pattern] has one entry per hour of the day at which
    some post was created, in ascending order of the hour: at most 24
    entries, an hour without posts has none.  [day_of_week_pattern] has
    exactly 7 entries, Monday to Sunday, and the entry of a weekday without
    posts has count 0 and mean 0. *)
Theorem time_series_patterns (d : data) (now : string) (doc : json) :
  dashboard_data d now = Ok doc -> hourly_and_weekly_patterns d doc.
Proof.
  intros Hdoc. apply dashboard_data_sections in Hdoc.
  destruct Hdoc as (tp & ta & ts & net & ins & Htp & _ & Hts & _ & _ & ->).
  apply top_posts_need_rows in Htp.
  apply time_series_rows in Hts. cbv zeta in Hts.
  set (rows := map (fun p => (p, parsed (created_at p)))
                   (map fill_upvotes (posts d))) in *.
  assert (Hrows : rows <> []).
  { unfold rows. destruct (posts d); [congruence|discriminate]. }
  set (hours := group_keys Z.eqb Z.leb hour_key rows).
  assert (Hmem : forall h, In h hours
                           <-> exists p, In p (posts d) /\ post_hour p = Some h).
  { intros h. unfold hours. rewrite (group_keys_In Z.eqb Z.leb hour_key Z.eqb_eq).
    apply hour_key_posts. }
  assert (Hrange : Forall (fun h => (0 <= h <= 23)%Z) hours).
  { apply Forall_forall. intros h Hh. apply Hmem in Hh.
    destruct Hh as [p [_ Hp]]. unfold post_hour, parsed in Hp.
    destruct (created_at p) as [s|]; [|discriminate].
    destruct (to_datetime s) as [t|] eqn:Ht; [|discriminate].
    inversion Hp; subst. now apply to_datetime_hour in Ht. }
  assert (Hasc : StronglySorted Z.lt hours) by apply group_keys_ascending.
  exists (hourly_pattern d rows), (day_of_week_pattern rows), hours.
  subst ts. split; [reflexivity|]. split; [reflexivity|].
  rewrite (day_of_week_pattern_rows Hrows).
  split; [|split; [exact Hasc|split; [exact Hmem|split; [exact Hrange|]]]].
  { unfold hourly_pattern, by_hour, hours.
    rewrite <- (groupby_keys Z.eqb Z.leb hour_key rows).
    rewrite !map_map. apply map_ext. reflexivity. }
  split.
  { unfold hourly_pattern, by_hour. rewrite length_map.
    rewrite <- (length_map fst), groupby_keys. fold hours.
    assert (H : (Z.of_nat (List.length hours) <= 24 - 0)%Z).
    { apply ascending_length; [exact Hasc| |lia].
      eapply Forall_impl; [|exact Hrange]. simpl. intros; lia. }
    lia. }
  split; [reflexivity|]. split.
  { rewrite map_map. apply map_ext. intros day. apply day_record_name. }
  intros i day Hi Hnone.
  rewrite nth_error_map, Hi. simpl. f_equal.
  unfold day_record, by_day. rewrite groupby_assoc_None; [reflexivity|].
  intros r Hr Hk. apply in_map_iff in Hr. destruct Hr as [p' [<- Hp']].
  apply in_map_iff in Hp'. destruct Hp' as [p [<- Hp]].
  now apply (Hnone p Hp).
Qed.

(** ** The cross-poster file *)
















(** ** The writer *)

(** The writer completes a document only when all its floats are finite,
    and raises, leaving the file incomplete, otherwise. *)
Lemma json_dump_rejects (doc : json) :
  json_dump doc
  = if finite_leaves doc then (Ok tt, Complete doc) else (Raise nan_error, Truncated).
Proof. reflexivity. Qed.

(** A document that a run has written has finite floats only. *)
Lemma written_document_finite (fs : files) (now : string) (doc : json) :
  snd (main fs now) = Complete doc -> finite_leaves doc = true.
Proof.
  unfold main. destruct (load_all_data fs) as [d|]; [|discriminate].
  destruct (dashboard_data d now) as [doc'|]; [|discriminate].
  unfold json_dump. destruct (finite_leaves doc') eqn:E; [|discriminate].
  simpl. intros H. now inversion H; subst.
Qed.

(** ** Overview *)

Lemma dropna_all_missing {A : Type} (col : list (option A)) :
  isna_all col = true -> dropna col = [].
Proof.
  induction col as [|[x|] col IH]; simpl; [reflexivity|discriminate|exact IH].
Qed.

(** The overview has no default for a column without values: its mean and
    its median are NaN. *)
Lemma overview_nan (d : data) :
  isna_all (map upvotes (posts d)) = true ->
  get_field "avg_upvotes_per_post" (export_overview_stats d) = Some (JFloat PNaN) /\
  get_field "median_upvotes" (export_overview_stats d) = Some (JFloat PNaN).
Proof.
  intros H. unfold export_overview_stats.
  cbn [get_field assoc String.eqb Ascii.eqb Bool.eqb].
  assert (E : dropna (Qcol (map upvotes (posts d))) = []).
  { apply dropna_all_missing. unfold Qcol, isna_all in *.
    rewrite forallb_forall in *. intros c Hc. apply in_map_iff in Hc.
    destruct Hc as [c' [<- Hc']]. specialize (H c' Hc'). now destruct c'. }
  unfold mean, median. rewrite E. split; reflexivity.
Qed.

(** C1 at a posts file whose only post has no upvotes: the overview holds
    NaN for the mean and the median of the upvotes, the writer raises and
    the output file is left incomplete. *)
Theorem missing_upvotes_not_finite :
  exists d,
    load_all_data upvotes_missing_files = Ok d /\
    get_field "avg_upvotes_per_post" (export_overview_stats d) = Some (JFloat PNaN) /\
    get_field "median_upvotes" (export_overview_stats d) = Some (JFloat PNaN) /\
    main upvotes_missing_files "2026-02-01T00:00:00" = (Raise nan_error, Truncated).
Proof.
  eexists. split; [reflexivity|]. repeat split; vm_compute; reflexivity.
Qed.

(** ** Insights *)

Lemma fill_insights_url (df : list post) :
  notna_sum (map url (map fill_insights df)) = List.length df.
Proof.
  unfold notna_sum. induction df as [|p df IH]; simpl; [reflexivity|].
  destruct (url p); simpl; now rewrite IH.
Qed.

(** The count of posts with a URL is taken after the missing URLs were
    filled with the empty string: it is the number of posts. *)
Lemma posts_with_urls_total (d : data) (ins : json) :
  export_insights d = Ok ins ->
  get_path ["content"; "posts_with_urls"] ins = Some (JNat (List.length (posts d))).
Proof.
  unfold export_insights.
  destruct (with_timestamps (map fill_insights (posts d))) as [rows|]; [|discriminate].
  cbn [bind].
  destruct (idxmax (group_means (by_hour rows))) as [bh|]; [|discriminate].
  cbn [bind].
  destruct (idxmax (group_means (by_day rows))) as [bd|]; [|discriminate].
  cbn [bind]. intros H. inversion H.
  cbn [get_path get_field assoc String.eqb Ascii.eqb Bool.eqb].
  now rewrite fill_insights_url.
Qed.

(** C3 at a posts file whose only post has no URL: no post has a URL, and
    [insights.content.posts_with_urls] is 1. *)
Theorem posts_with_urls_counts_missing :
  exists d ins,
    load_all_data sample_files = Ok d /\
    export_insights d = Ok ins /\
    notna_sum (map url (posts d)) = 0 /\
    get_path ["content"; "posts_with_urls"] ins = Some (JInt 1).
Proof.
  eexists. eexists. split; [reflexivity|].
  split; [vm_compute; reflexivity|]. split; reflexivity.
Qed.

(** ** Author names *)

(** The index label of a loaded row is its position in the file. *)
Lemma range_index_In {A : Type} (rows : list A) (i : nat) (r : A) :
  In (i, r) (range_index rows) -> nth_error rows i = Some r.
Proof.
  unfold range_index.
  assert (H : forall s, In (i, r) (combine (seq s (List.length rows)) rows) ->
                        s <= i /\ nth_error rows (i - s) = Some r).
  { induction rows as [|x rows IH]; simpl; intros s Hin; [contradiction|].
    destruct Hin as [Heq|Hin].
    - inversion Heq; subst. rewrite Nat.sub_diag. auto.
    - apply IH in Hin. destruct Hin as [Hle Hnth]. split; [lia|].
      replace (i - s) with (S (i - S s)) by lia. exact Hnth. }
  intros Hin. apply H in Hin. destruct Hin as [_ Hin].
  now rewrite Nat.sub_0_r in Hin.
Qed.

(** C4 at an author-statistics file with the one record of alice: each of
    the three rankings has one entry, and its name is the row label 0, not
    alice. *)
Theorem top_author_name_is_row_label :
  exists d ta eng pst con,
    load_all_data sample_files = Ok d /\
    map (fun ir => author (snd ir)) (author_stats d) = [Some "alice"] /\
    export_top_authors d 20 = Ok ta /\
    get_field "by_engagement" ta = Some (JList eng) /\
    get_field "by_posts" ta = Some (JList pst) /\
    get_field "by_consistency" ta = Some (JList con) /\
    map (get_field "name") eng = [Some (JStr "0")] /\
    map (get_field "name") pst = [Some (JStr "0")] /\
    map (get_field "name") con = [Some (JStr "0")].
Proof.
  do 5 eexists. split; [reflexivity|]. split; [reflexivity|].
  split; [vm_compute; reflexivity|]. repeat split; reflexivity.
Qed.

(** ** An empty posts table *)

(** C10, as the code has it.  When both tables load and the posts table
    has no rows, the run raises in the top-posts aggregator, whose
    [nlargest] refuses the upvotes column of a table without rows; the
    insights aggregator is not reached, and on its own it raises too, on
    the argmax of the empty series of hourly means.  The output file is not
    touched. *)
Theorem empty_posts_table_raises
  (stats : list author_row) (cp : option (list (string * list string)))
  (b : option (list (string * pyfloat))) (ns : option (list (string * json)))
  (now : string) :
  let fs := mk_files (Some []) (Some stats) cp b ns in
  main fs now = (Raise nlargest_error, Untouched) /\
  exists d,
    load_all_data fs = Ok d /\
    export_top_posts d 20 = Raise nlargest_error /\
    export_insights d = Raise argmax_error.
Proof.
  intros fs. split; [reflexivity|].
  eexists. split; [reflexivity|]. split; reflexivity.
Qed.

(** On an empty posts table the exception that ends the run is not the one
    of the insights aggregator. *)
Lemma empty_posts_not_stopped_by_insights :
  exists d e,
    load_all_data empty_posts_files = Ok d /\
    export_insights d = Raise e /\
    fst (main empty_posts_files "2026-02-01T00:00:00") <> Raise e.
Proof.
  do 2 eexists. split; [reflexivity|]. split; [reflexivity|].
  vm_compute. discriminate.
Qed.

(** ** The hourly pattern of the sample *)

(** One post, one hour: the hourly pattern of the written document has one
    entry, not 24. *)
Lemma hourly_pattern_single_hour :
  exists doc hourly,
    main sample_files "2026-02-01T00:00:00" = (Ok tt, Complete doc) /\
    get_path ["time_series"; "hourly_pattern"] doc = Some (JList hourly) /\
    List.length hourly = 1 /\
    List.length hourly <> 24.
Proof.
  do 2 eexists. split; [vm_compute; reflexivity|].
  split; [reflexivity|]. split; [reflexivity|]. simpl. lia.
Qed.

Lemma time_series_patterns_witness :
  exists d doc,
    dashboard_data d "2026-02-01T00:00:00" = Ok doc /\
    hourly_and_weekly_patterns d doc.
Proof.
  exists (mk_data [sample_post] (range_index [sample_author]) [] [] []).
  eexists. split; [vm_compute; reflexivity|].
  apply (time_series_patterns
           (mk_data [sample_post] (range_index [sample_author]) [] [] [])
           "2026-02-01T00:00:00").
  vm_compute. reflexivity.
Defined.

(** ** Worked examples *)

(** Upvotes 10, 50, 5: the sum is 65, the mean 65/3 and the median 10. *)
Example overview_of_three_posts :
  let o := export_overview_stats (mk_data three_posts [] [] [] []) in
  get_field "total_posts" o = Some (JInt 3) /\
  get_field "total_upvotes" o = Some (JInt 65) /\
  get_field "avg_upvotes_per_post" o = Some (JFloat (PFin (65 # 3)%Q)) /\
  get_field "median_upvotes" o = Some (JFloat (PFin 10%Q)).
Proof. repeat split; vm_compute; reflexivity. Qed.

(** A submolt with upvotes 4 and 6 reports the mean 5.0 and 2 posts. *)
Example submolt_of_two_posts :
  exists e,
    export_submolt_stats (mk_data two_posts [] [] [] []) 30 = JList [e] /\
    get_field "name" e = Some (JStr "tools") /\
    get_field "post_count" e = Some (JInt 2) /\
    get_field "avg_upvotes" e = Some (JFloat (PFin 5%Q)).
Proof. eexists. split; [vm_compute; reflexivity|]. repeat split. Qed.

(** An author with 3 posts is ranked by posts and is not ranked by
    engagement or by consistency. *)
Example occasional_author_ranked_by_posts_only :
  exists ta pst,
    export_top_authors (mk_data [] (range_index [occasional_author]) [] [] []) 20
    = Ok ta /\
    get_field "by_engagement" ta = Some (JList []) /\
    get_field "by_posts" ta = Some (JList pst) /\
    map (get_field "total_posts") pst = [Some (JInt 3)] /\
    get_field "by_consistency" ta = Some (JList []).
Proof. do 2 eexists. split; [vm_compute; reflexivity|]. repeat split. Qed.

(** The sample run completes, and its document names the weekdays in order
    with the one post on Monday. *)
Example sample_run_completes :
  exists doc dow,
    main sample_files "2026-02-01T00:00:00" = (Ok tt, Complete doc) /\
    get_path ["time_series"; "day_of_week_pattern"] doc = Some (JList dow) /\
    map (get_field "id") dow
    = [ Some (JFloat (PFin 1%Q)); Some (JFloat (PFin 0%Q));
        Some (JFloat (PFin 0%Q)); Some (JFloat (PFin 0%Q));
        Some (JFloat (PFin 0%Q)); Some (JFloat (PFin 0%Q));
        Some (JFloat (PFin 0%Q)) ] /\
    get_path ["insights"; "timing"; "best_day"] doc = Some (JStr "Monday").
Proof. do 2 eexists. split; [vm_compute; reflexivity|]. repeat split. Qed.

(** * Further properties *)

(** ** The order of strings *)

Lemma ascii_compare_lt_trans (a b c : ascii) :
  Ascii.compare a b = Lt -> Ascii.compare b c = Lt -> Ascii.compare a c = Lt.
Proof.
  unfold Ascii.compare. rewrite !N.compare_lt_iff. lia.
Qed.

Lemma ascii_compare_eq (a b : ascii) : Ascii.compare a b = Eq -> a = b.
Proof. apply Ascii.compare_eq_iff. Qed.

Lemma string_compare_lt_trans (a b c : string) :
  String.compare a b = Lt -> String.compare b c = Lt -> String.compare a c = Lt.
Proof.
  revert b c. induction a as [|x a IH]; intros [|y b] [|z c]; simpl;
    try discriminate; try reflexivity.
  destruct (Ascii.compare x y) eqn:Exy; try discriminate;
    destruct (Ascii.compare y z) eqn:Eyz; try discriminate; intros Hab Hbc.
  - apply ascii_compare_eq in Exy, Eyz. subst.
    rewrite (proj2 (N.compare_eq_iff _ _) eq_refl : Ascii.compare z z = Eq).
    now apply (IH b c).
  - apply ascii_compare_eq in Exy. subst. now rewrite Eyz.
  - apply ascii_compare_eq in Eyz. subst. now rewrite Exy.
  - now rewrite (ascii_compare_lt_trans x y z Exy Eyz).
Qed.

Lemma string_leb_refl (a : string) : String.leb a a = true.
Proof.
  destruct (String.leb_total a a); assumption.
Qed.

Lemma string_leb_trans (a b c : string) :
  String.leb a b = true -> String.leb b c = true -> String.leb a c = true.
Proof.
  intros Hab Hbc. unfold String.leb in Hab, Hbc.
  destruct (String.compare a b) eqn:Eab; try discriminate.
  - apply String.compare_eq_iff in Eab. subst a. unfold String.leb.
    destruct (String.compare b c); [reflexivity|reflexivity|discriminate].
  - destruct (String.compare b c) eqn:Ebc; try discriminate.
    + apply String.compare_eq_iff in Ebc. subst c. unfold String.leb.
      now rewrite Eab.
    + unfold String.leb. now rewrite (string_compare_lt_trans a b c Eab Ebc).
Qed.

Lemma string_ltb_leb (a b : string) :
  String.ltb a b = true <-> String.leb a b = true /\ a <> b.
Proof.
  unfold String.ltb, String.leb.
  destruct (String.compare a b) eqn:E.
  - apply String.compare_eq_iff in E. split; [discriminate|tauto].
  - split; [|reflexivity]. intros _. split; [reflexivity|]. intros ->.
    pose proof (String.compare_antisym b b) as H. rewrite E in H. discriminate.
  - split; [discriminate|]. intros [H _]. discriminate.
Qed.

Lemma string_ltb_false (a b : string) :
  String.ltb a b = false <-> String.leb b a = true.
Proof.
  unfold String.ltb, String.leb. rewrite (String.compare_antisym a b).
  destruct (String.compare b a); simpl; split; intros H;
    try reflexivity; discriminate H.
Qed.

Lemma StronglySorted_leb_ltb (l : list string) :
  StronglySorted (fun a b => String.leb a b = true) l -> NoDup l ->
  StronglySorted (fun a b => String.ltb a b = true) l.
Proof.
  induction 1 as [|a l HS IH Hall]; intros Hnd; constructor.
  - apply IH. now inversion Hnd.
  - inversion Hnd; subst. rewrite Forall_forall in *. intros x Hx.
    apply string_ltb_leb. split; [now apply Hall|].
    intros ->. contradiction.
Qed.

Lemma group_keys_ascending_str {A : Type} (key : A -> option string) (rows : list A) :
  StronglySorted (fun a b => String.ltb a b = true)
                 (group_keys String.eqb String.leb key rows).
Proof.
  apply StronglySorted_leb_ltb; [|apply group_keys_NoDup, String.eqb_eq].
  unfold group_keys. apply stable_sort_sorted with (P := fun _ => True).
  - intros x y _ _ H. exact H.
  - intros x y _ _ H. unfold asc_by in H.
    destruct (String.leb_total x y) as [H'|H']; [congruence|exact H'].
  - intros x y z _ _ _. apply string_leb_trans.
  - apply Forall_forall. auto.
Qed.

(** ** Groups partition the rows *)

Lemma filter_or_app {A : Type} (f g : A -> bool) (l : list A) :
  (forall x, In x l -> f x = true -> g x = false) ->
  Permutation (filter (fun x => f x || g x) l) (filter f l ++ filter g l).
Proof.
  induction l as [|x l IH]; simpl; intros H; [constructor|].
  assert (IH' : Permutation (filter (fun x => f x || g x) l)
                            (filter f l ++ filter g l))
    by (apply IH; intros y Hy; apply H; now right).
  destruct (f x) eqn:Ef; simpl.
  - rewrite (H x (or_introl eq_refl) Ef). now constructor.
  - destruct (g x); [|exact IH'].
    rewrite IH'. apply Permutation_middle.
Qed.

Section Partition.
Context {A K : Type} (eqb leb : K -> K -> bool) (key : A -> option K).
Hypothesis eqb_eq : forall x y, eqb x y = true <-> x = y.

Lemma groups_partition (ks : list K) (rows : list A) :
  NoDup ks ->
  Permutation (List.concat (map (fun k => filter (in_group eqb key k) rows) ks))
              (filter (fun r => existsb (fun k => in_group eqb key k r) ks) rows).
Proof.
  induction 1 as [|k ks Hk Hnd IH]; simpl.
  - induction rows as [|r rows IHr]; simpl; [constructor|exact IHr].
  - rewrite IH. symmetry. apply filter_or_app.
    intros r _ Hr. apply not_true_iff_false. intros Hex.
    apply existsb_exists in Hex. destruct Hex as [k' [Hk' Hr']].
    unfold in_group in Hr, Hr'. destruct (key r) as [kr|]; [|discriminate].
    apply eqb_eq in Hr, Hr'. subst. contradiction.
Qed.

(** The groups of [groupby] hold each row with a key once, and no other. *)
Lemma groupby_partition (rows : list A) :
  Permutation (List.concat (map snd (groupby eqb leb key rows)))
              (filter (fun r => notna (key r)) rows).
Proof.
  unfold groupby. rewrite map_map. simpl.
  rewrite groups_partition by (apply group_keys_NoDup, eqb_eq).
  apply Permutation_refl'. apply filter_ext_in. intros r Hr.
  destruct (key r) as [k|] eqn:Ek; simpl.
  - apply existsb_exists. exists k. split.
    + apply (group_keys_In eqb leb key eqb_eq). exists r. auto.
    + unfold in_group. rewrite Ek. now apply eqb_eq.
  - apply not_true_iff_false. intros Hex. apply existsb_exists in Hex.
    destruct Hex as [k [_ Hk]]. unfold in_group in Hk. rewrite Ek in Hk.
    discriminate.
Qed.
End Partition.

(** ** The label of the largest value *)

Lemma idxmax_fold {K : Type} (s pre mid : list (K * Q)) (best : K * Q) :
  (forall kv, In kv pre -> (snd kv < snd best)%Q) ->
  (forall kv, In kv mid -> (snd kv <= snd best)%Q) ->
  exists l1 l2,
    pre ++ best :: mid ++ s
    = l1 ++ fold_left (fun b kv' => if Qle_bool (snd kv') (snd b) then b else kv')
                      s best :: l2 /\
    (forall kv, In kv l1 ->
       (snd kv < snd (fold_left (fun b kv' =>
                                   if Qle_bool (snd kv') (snd b) then b else kv')
                                s best))%Q) /\
    (forall kv, In kv l2 ->
       (snd kv <= snd (fold_left (fun b kv' =>
                                    if Qle_bool (snd kv') (snd b) then b else kv')
                                 s best))%Q).
Proof.
  revert pre mid best. induction s as [|kv s IH]; intros pre mid best Hpre Hmid.
  - exists pre, mid. rewrite app_nil_r. auto.
  - simpl. destruct (Qle_bool (snd kv) (snd best)) eqn:E.
    + apply Qle_bool_iff in E.
      destruct (IH pre (mid ++ [kv]) best Hpre) as (l1 & l2 & Heq & H1 & H2).
      { intros x Hx. apply in_app_or in Hx. destruct Hx as [Hx|[<-|[]]]; auto. }
      exists l1, l2. rewrite <- Heq, <- app_assoc. auto.
    + assert (Hlt : (snd best < snd kv)%Q).
      { apply Qnot_le_lt. intros H. apply Qle_bool_iff in H. congruence. }
      destruct (IH (pre ++ best :: mid) [] kv) as (l1 & l2 & Heq & H1 & H2).
      { intros x Hx. apply in_app_or in Hx. destruct Hx as [Hx|[<-|Hx]].
        - specialize (Hpre x Hx). lra.
        - exact Hlt.
        - specialize (Hmid x Hx). lra. }
      { intros x []. }
      exists l1, l2. rewrite <- Heq, <- app_assoc. auto.
Qed.

(** [idxmax] returns the label of a largest value, the first of them. *)
Lemma idxmax_first_largest {K : Type} (s : list (K * Q)) (k : K) :
  idxmax s = Ok k ->
  exists v l1 l2,
    s = l1 ++ (k, v) :: l2 /\
    (forall kv, In kv l1 -> (snd kv < v)%Q) /\
    (forall kv, In kv l2 -> (snd kv <= v)%Q).
Proof.
  unfold idxmax. destruct s as [|kv s]; [discriminate|].
  intros H. inversion H as [Hk]. clear H.
  destruct (idxmax_fold s [] [] kv) as (l1 & l2 & Heq & H1 & H2);
    [intros x []|intros x []|].
  simpl in Heq.
  destruct (fold_left (fun b kv' => if Qle_bool (snd kv') (snd b) then b else kv')
                      s kv) as [k' v] eqn:E.
  simpl in *. exists v, l1, l2. auto.
Qed.

Lemma idxmax_of_sorted {K : Type} (R : K -> K -> Prop) (F : K -> Q)
  (keys : list K) (k : K) :
  StronglySorted R keys ->
  (forall a b, R a b -> ~ R b a) -> (forall a, ~ R a a) ->
  idxmax (map (fun k => (k, F k)) keys) = Ok k ->
  In k keys /\
  forall k', In k' keys -> (F k' <= F k)%Q /\ (R k' k -> (F k' < F k)%Q).
Proof.
  intros HS Hasym Hirr H. apply idxmax_first_largest in H.
  destruct H as (v & l1 & l2 & Heq & H1 & H2).
  assert (Hkeys : keys = map fst l1 ++ k :: map fst l2).
  { apply (f_equal (map fst)) in Heq. rewrite map_map, map_app in Heq.
    simpl in Heq. now rewrite map_id in Heq. }
  assert (Hin : forall kv, In kv (l1 ++ (k, v) :: l2) -> snd kv = F (fst kv)).
  { rewrite <- Heq. intros kv Hkv. apply in_map_iff in Hkv.
    destruct Hkv as [k0 [<- _]]. reflexivity. }
  assert (Hv : v = F k).
  { apply (Hin (k, v)). apply in_or_app. right. now left. }
  subst v. split; [rewrite Hkeys; apply in_or_app; right; now left|].
  intros k' Hk'.
  assert (Hk'' : In (k', F k') (l1 ++ (k, F k) :: l2)).
  { rewrite <- Heq. apply in_map_iff. exists k'. auto. }
  apply in_app_or in Hk''. destruct Hk'' as [Hl1|[Hk0|Hl2]].
  - specialize (H1 _ Hl1). simpl in H1. split; [lra|auto].
  - inversion Hk0; subst. split; [lra|]. intros Hr. now apply Hirr in Hr.
  - specialize (H2 _ Hl2). simpl in H2. split; [exact H2|].
    intros Hr. exfalso. rewrite Hkeys in HS.
    assert (HS2 : StronglySorted R (k :: map fst l2)).
    { clear - HS. induction (map fst l1) as [|a l IH]; simpl in HS;
        [exact HS|inversion HS; auto]. }
    inversion HS2 as [|? ? _ Hall]; subst. rewrite Forall_forall in Hall.
    apply (Hasym _ _ Hr). apply Hall.
    apply in_map_iff. exists (k', F k'). auto.
Qed.

(** ** Insights: the best hour and the best day *)

Lemma insights_rows_hour (df : list post) (h : Z) :
  map (fun r : timed => upvotes (fst r))
      (filter (in_group Z.eqb hour_key h)
              (map (fun p => (p, parsed (created_at p))) (map fill_insights df)))
  = map (fun p => fillna 0%N (upvotes p))
        (filter (fun p => match post_hour p with
                          | Some h' => Z.eqb h h'
                          | None => false
                          end) df).
Proof.
  induction df as [|p df IH]; [reflexivity|].
  cbn [map filter].
  change (in_group Z.eqb hour_key h
            (fill_insights p, parsed (created_at (fill_insights p))))
    with (match post_hour p with Some h' => Z.eqb h h' | None => false end).
  destruct (match post_hour p with Some h' => Z.eqb h h' | None => false end);
    cbn [map]; now rewrite IH.
Qed.

Lemma insights_rows_day (df : list post) (day : string) :
  map (fun r : timed => upvotes (fst r))
      (filter (in_group String.eqb day_key day)
              (map (fun p => (p, parsed (created_at p))) (map fill_insights df)))
  = map (fun p => fillna 0%N (upvotes p))
        (filter (fun p => match post_day p with
                          | Some day' => String.eqb day day'
                          | None => false
                          end) df).
Proof.
  induction df as [|p df IH]; [reflexivity|].
  cbn [map filter].
  change (in_group String.eqb day_key day
            (fill_insights p, parsed (created_at (fill_insights p))))
    with (match post_day p with Some d' => String.eqb day d' | None => false end).
  destruct (match post_day p with Some d' => String.eqb day d' | None => false end);
    cbn [map]; now rewrite IH.
Qed.

Lemma day_key_posts (df : list post) (day : string) :
  (exists r, In r (map (fun p => (p, parsed (created_at p))) (map fill_insights df))
             /\ day_key r = Some day)
  <-> exists p, In p df /\ post_day p = Some day.
Proof.
  split.
  - intros [r [Hr Hh]]. apply in_map_iff in Hr. destruct Hr as [p' [<- Hp']].
    apply in_map_iff in Hp'. destruct Hp' as [p [<- Hp]]. exists p. auto.
  - intros [p [Hp Hh]]. exists (fill_insights p, parsed (created_at p)).
    split; [|exact Hh].
    apply in_map_iff. exists (fill_insights p). split; [reflexivity|].
    now apply in_map.
Qed.

Lemma hour_key_posts_insights (df : list post) (h : Z) :
  (exists r, In r (map (fun p => (p, parsed (created_at p))) (map fill_insights df))
             /\ hour_key r = Some h)
  <-> exists p, In p df /\ post_hour p = Some h.
Proof.
  split.
  - intros [r [Hr Hh]]. apply in_map_iff in Hr. destruct Hr as [p' [<- Hp']].
    apply in_map_iff in Hp'. destruct Hp' as [p [<- Hp]]. exists p. auto.
  - intros [p [Hp Hh]]. exists (fill_insights p, parsed (created_at p)).
    split; [|exact Hh].
    apply in_map_iff. exists (fill_insights p). split; [reflexivity|].
    now apply in_map.
Qed.

Lemma best_hour_and_day_rows (d : data) (ins : json) :
  export_insights d = Ok ins ->
  exists h : Z,
    get_path ["timing"; "best_hour"] ins = Some (JInt h) /\
    (exists p, In p (posts d) /\ post_hour p = Some h) /\
    (forall h', (exists p, In p (posts d) /\ post_hour p = Some h') ->
       (mean_upvotes (posts_at_hour d h') <= mean_upvotes (posts_at_hour d h))%Q).
Proof.
  unfold export_insights.
  destruct (with_timestamps (map fill_insights (posts d))) as [rows|] eqn:Er;
    [|discriminate].
  apply with_timestamps_rows in Er. cbn [bind].
  destruct (idxmax (group_means (by_hour rows))) as [h|] eqn:Eh; [|discriminate].
  cbn [bind].
  destruct (idxmax (group_means (by_day rows))) as [day|] eqn:Ed; [|discriminate].
  cbn [bind]. intros H. inversion H. clear H.
  exists h. split; [reflexivity|].
  assert (Hh : group_means (by_hour rows)
               = map (fun k => (k, mean_upvotes (posts_at_hour d k)))
                     (group_keys Z.eqb Z.leb hour_key rows)).
  { unfold group_means, by_hour, groupby. rewrite map_map. apply map_ext.
    intros k. cbn [fst snd]. f_equal. unfold upvotes_mean, mean_upvotes, posts_at_hour.
    subst rows. now rewrite insights_rows_hour. }
  rewrite Hh in Eh.
  apply idxmax_of_sorted with (R := Z.lt) in Eh;
    [|apply group_keys_ascending|intros; lia|intros; lia].
  destruct Eh as [Hhin Hhmax].
  assert (Hhk : forall k, In k (group_keys Z.eqb Z.leb hour_key rows)
                          <-> exists p, In p (posts d) /\ post_hour p = Some k).
  { intros k. rewrite (group_keys_In Z.eqb Z.leb hour_key Z.eqb_eq). subst rows.
    apply hour_key_posts_insights. }
  split; [now apply Hhk|].
  intros h' Hh'. apply Hhmax. now apply Hhk.
Qed.

(** X1.  The best hour and the best day.  When the insights aggregator returns,
    [timing.best_hour] is an hour at which some post was created, no hour
    has a larger mean of upvotes (missing upvotes count as 0), and every
    earlier hour has a smaller one; [timing.best_day] is a weekday with a
    post, no weekday has a larger mean, and every weekday whose name comes
    before it in alphabetical order has a smaller one. *)
Theorem best_hour_and_day (d : data) (ins : json) :
  export_insights d = Ok ins -> best_timing d ins.
Proof.
  unfold export_insights.
  destruct (with_timestamps (map fill_insights (posts d))) as [rows|] eqn:Er;
    [|discriminate].
  apply with_timestamps_rows in Er. cbn [bind].
  destruct (idxmax (group_means (by_hour rows))) as [h|] eqn:Eh; [|discriminate].
  cbn [bind].
  destruct (idxmax (group_means (by_day rows))) as [day|] eqn:Ed; [|discriminate].
  cbn [bind]. intros H. inversion H. clear H.
  exists h, day. split; [reflexivity|]. split; [reflexivity|].
  fold (posts_at_hour d) (posts_on_day d).
  assert (Hh : group_means (by_hour rows)
               = map (fun k => (k, mean_upvotes (posts_at_hour d k)))
                     (group_keys Z.eqb Z.leb hour_key rows)).
  { unfold group_means, by_hour, groupby. rewrite map_map. apply map_ext.
    intros k. cbn [fst snd]. f_equal. unfold upvotes_mean, mean_upvotes, posts_at_hour.
    subst rows. now rewrite insights_rows_hour. }
  assert (Hd : group_means (by_day rows)
               = map (fun k => (k, mean_upvotes (posts_on_day d k)))
                     (group_keys String.eqb String.leb day_key rows)).
  { unfold group_means, by_day, groupby. rewrite map_map. apply map_ext.
    intros k. cbn [fst snd]. f_equal. unfold upvotes_mean, mean_upvotes, posts_on_day.
    subst rows. now rewrite insights_rows_day. }
  rewrite Hh in Eh. rewrite Hd in Ed.
  apply idxmax_of_sorted with (R := Z.lt) in Eh;
    [|apply group_keys_ascending|intros; lia|intros; lia].
  apply idxmax_of_sorted with (R := fun a b => String.ltb a b = true) in Ed;
    [|apply group_keys_ascending_str| |].
  2:{ intros a b Hab Hba. apply string_ltb_leb in Hab, Hba.
      destruct Hab as [Hab Hne], Hba as [Hba _].
      apply Hne. now apply String.leb_antisym. }
  2:{ intros a Ha. apply string_ltb_leb in Ha. now destruct Ha. }
  destruct Eh as [Hhin Hhmax]. destruct Ed as [Hdin Hdmax].
  assert (Hhk : forall k, In k (group_keys Z.eqb Z.leb hour_key rows)
                          <-> exists p, In p (posts d) /\ post_hour p = Some k).
  { intros k. rewrite (group_keys_In Z.eqb Z.leb hour_key Z.eqb_eq). subst rows.
    apply hour_key_posts_insights. }
  assert (Hdk : forall k, In k (group_keys String.eqb String.leb day_key rows)
                          <-> exists p, In p (posts d) /\ post_day p = Some k).
  { intros k. rewrite (group_keys_In String.eqb String.leb day_key String.eqb_eq).
    subst rows. apply day_key_posts. }
  split; [now apply Hhk|]. split; [now apply Hdk|]. split.
  - intros h' Hh'. apply Hhmax. now apply Hhk.
  - intros day' Hday'. apply Hdmax. now apply Hdk.
Qed.

(** ** When the aggregators raise *)

Lemma mapM_to_datetime_cases (cells : list (option string)) :
  match mapM to_datetime_cell cells with
  | Ok _ => forall s, In (Some s) cells -> exists t, to_datetime s = Ok t
  | Raise e => exists s, In (Some s) cells /\ to_datetime s = Raise e
  end.
Proof.
  induction cells as [|c cells IH]; simpl; [intros s []|].
  destruct c as [s|]; simpl.
  - destruct (to_datetime s) as [t|e] eqn:Es; simpl.
    + destruct (mapM to_datetime_cell cells) as [ts|e]; simpl.
      * intros s' [Hs'|Hs']; [inversion Hs'; subst; eauto|auto].
      * destruct IH as [s' [Hin Hs']]. eauto.
    + exists s. auto.
  - destruct (mapM to_datetime_cell cells) as [ts|e]; simpl.
    + intros s' [Hs'|Hs']; [discriminate|auto].
    + destruct IH as [s' [Hin Hs']]. eauto.
Qed.

Lemma with_timestamps_cases (df : list post) :
  match with_timestamps df with
  | Ok rows =>
      rows = map (fun p => (p, parsed (created_at p))) df /\
      forall p s, In p df -> created_at p = Some s -> exists t, to_datetime s = Ok t
  | Raise e =>
      exists p s, In p df /\ created_at p = Some s /\ to_datetime s = Raise e
  end.
Proof.
  pose proof (mapM_to_datetime_cases (map created_at df)) as H.
  destruct (with_timestamps df) as [rows|e] eqn:E.
  - split; [now apply with_timestamps_rows|].
    unfold with_timestamps in E.
    destruct (mapM to_datetime_cell (map created_at df)); [|discriminate].
    intros p s Hp Hs. apply H. rewrite <- Hs. now apply in_map.
  - unfold with_timestamps in E.
    destruct (mapM to_datetime_cell (map created_at df)) as [ts|e'];
      [discriminate|].
    simpl in E. inversion E; subst. destruct H as [s [Hin Hs]].
    apply in_map_iff in Hin. destruct Hin as [p [Hp Hin]]. eauto.
Qed.

Lemma fill_insights_parse (d : data) :
  (forall p s, In p (map fill_insights (posts d)) -> created_at p = Some s ->
               exists t, to_datetime s = Ok t)
  <-> timestamps_parse d.
Proof.
  unfold timestamps_parse. split; intros H p s Hp Hs.
  - apply (H (fill_insights p)); [now apply in_map|exact Hs].
  - apply in_map_iff in Hp. destruct Hp as [p' [<- Hp']]. eauto.
Qed.

Lemma idxmax_nonempty {K : Type} (s : list (K * Q)) :
  s <> [] -> exists k, idxmax s = Ok k.
Proof. destruct s as [|kv s]; [congruence|]. intros _. simpl. eauto. Qed.

Lemma group_means_nonempty {K : Type} (eqb leb : K -> K -> bool)
  (key : timed -> option K) (rows : list timed) (r : timed) (k : K) :
  (forall x y, eqb x y = true <-> x = y) ->
  In r rows -> key r = Some k ->
  group_means (groupby eqb leb key rows) <> [].
Proof.
  intros Heq Hr Hk Hnil.
  assert (Hin : In k (group_keys eqb leb key rows))
    by (apply (group_keys_In eqb leb key Heq); eauto).
  rewrite <- (groupby_keys eqb leb key rows) in Hin.
  unfold group_means in Hnil. apply map_eq_nil in Hnil.
  rewrite Hnil in Hin. contradiction.
Qed.

Lemma group_means_empty {K : Type} (eqb leb : K -> K -> bool)
  (key : timed -> option K) (rows : list timed) :
  (forall x y, eqb x y = true <-> x = y) ->
  (forall r, In r rows -> key r = None) ->
  group_means (groupby eqb leb key rows) = [].
Proof.
  intros Heq Hnone.
  destruct (group_keys eqb leb key rows) as [|k ks] eqn:E.
  - unfold group_means, groupby. now rewrite E.
  - assert (Hin : In k (group_keys eqb leb key rows)) by (rewrite E; now left).
    apply (group_keys_In eqb leb key Heq) in Hin.
    destruct Hin as [r [Hr Hk]]. rewrite (Hnone r Hr) in Hk. discriminate.
Qed.

Lemma timestamp_cases (ps : list post) :
  (forall p, In p ps -> created_at p = None)
  \/ exists p, In p ps /\ created_at p <> None.
Proof.
  induction ps as [|p ps IH].
  - left. intros p [].
  - destruct (created_at p) as [s|] eqn:Ec.
    + right. exists p. split; [now left|congruence].
    + destruct IH as [IH|[q [Hq Hc]]].
      * left. intros q [<-|Hq]; auto.
      * right. exists q. split; [now right|exact Hc].
Qed.

Lemma insights_cases (d : data) :
  match export_insights d with
  | Ok _ => timestamps_parse d /\ some_timestamp d
  | Raise e =>
      (e = argmax_error /\ forall p, In p (posts d) -> created_at p = None) \/
      (exists p s, In p (posts d) /\ created_at p = Some s /\ to_datetime s = Raise e)
  end.
Proof.
  unfold export_insights.
  pose proof (with_timestamps_cases (map fill_insights (posts d))) as H.
  destruct (with_timestamps (map fill_insights (posts d))) as [rows|e]; cbn [bind].
  2:{ right. destruct H as (p & s & Hp & Hs & He). apply in_map_iff in Hp.
      destruct Hp as [p' [<- Hp']]. exists p', s. auto. }
  destruct H as [Hrows Hparse]. apply fill_insights_parse in Hparse.
  pose proof (timestamp_cases (posts d)) as Hcases.
  fold (some_timestamp d) in Hcases.
  destruct Hcases as [Hnone|Hsome].
  - assert (E : group_means (by_hour rows) = []).
    { apply group_means_empty; [apply Z.eqb_eq|]. subst rows. intros r Hr.
      apply in_map_iff in Hr. destruct Hr as [p' [<- Hp']].
      apply in_map_iff in Hp'. destruct Hp' as [p [<- Hp]].
      unfold hour_key. simpl. change (created_at (fill_insights p)) with (created_at p).
      now rewrite (Hnone p Hp). }
    rewrite E. cbn [idxmax bind]. left. auto.
  - destruct Hsome as [p [Hp Hc]]. destruct (created_at p) as [s|] eqn:Ec;
      [|congruence].
    destruct (Hparse p s Hp Ec) as [t Ht].
    assert (Hr : In (fill_insights p, Some t) rows).
    { subst rows. apply in_map_iff. exists (fill_insights p).
      split; [|now apply in_map].
      change (created_at (fill_insights p)) with (created_at p).
      unfold parsed. now rewrite Ec, Ht. }
    destruct (@idxmax_nonempty _ (group_means (by_hour rows))) as [h Eh].
    { eapply group_means_nonempty; [apply Z.eqb_eq|exact Hr|reflexivity]. }
    destruct (@idxmax_nonempty _ (group_means (by_day rows))) as [day Ed].
    { eapply group_means_nonempty; [apply String.eqb_eq|exact Hr|reflexivity]. }
    rewrite Eh. cbn [bind]. rewrite Ed. cbn [bind].
    split; [exact Hparse|]. exists p. split; [exact Hp|congruence].
Qed.

(** X3.  A posts table in which no post has a timestamp cannot be exported:
    the insights aggregator raises, the hourly means being an empty series
    that has no largest value, and the run ends with an exception before
    the output file is opened. *)
Theorem no_timestamp_no_document (fs : files) (now : string) (d : data) :
  load_all_data fs = Ok d -> no_timestamp d ->
  (exists e, export_insights d = Raise e) /\
  exists e, main fs now = (Raise e, Untouched).
Proof.
  intros Hl Hnone.
  assert (Hi : exists e, export_insights d = Raise e).
  { pose proof (insights_cases d) as H.
    destruct (export_insights d) as [ins|e]; [|eauto].
    destruct H as [_ [p [Hp Hc]]]. exfalso. apply Hc, Hnone, Hp. }
  split; [exact Hi|]. destruct Hi as [e He].
  unfold main. rewrite Hl. unfold dashboard_data. rewrite He.
  destruct (export_top_posts d 20); cbn [bind]; [|eauto].
  destruct (export_top_authors d 20); cbn [bind]; [|eauto].
  destruct (export_time_series d); cbn [bind]; [|eauto].
  destruct (export_network_data d); cbn [bind]; eauto.
Qed.

(** X5.  An author-statistics table without rows stops the run.  The
    columns of such a table have the dtype object, which [nlargest]
    refuses: the top-authors aggregator raises a TypeError at its first
    ranking, and the run ends before the output file is opened. *)
Theorem empty_author_table_raises (fs : files) (now : string) (d : data) :
  load_all_data fs = Ok d -> author_stats d = [] ->
  export_top_authors d 20
  = Raise (TypeError "engagement_rate has dtype object, cannot use method nlargest") /\
  exists e, main fs now = (Raise e, Untouched).
Proof.
  intros Hl Hnil.
  assert (Ha : export_top_authors d 20
               = Raise (TypeError
                          "engagement_rate has dtype object, cannot use method nlargest")).
  { unfold export_top_authors, check_nlargest_dtype. rewrite Hnil. reflexivity. }
  split; [exact Ha|].
  unfold main. rewrite Hl. unfold dashboard_data. rewrite Ha.
  destruct (export_top_posts d 20); cbn [bind]; eauto.
Qed.

(** ** Where a float that is not finite comes from *)

Lemma Qsorted_length (xs : list Q) : List.length (Qsorted xs) = List.length xs.
Proof. apply stable_sort_length. Qed.

Lemma mean_notna (c : list (option Q)) :
  notna (mean c) = negb (match dropna c with [] => true | _ => false end).
Proof. unfold mean. destruct (dropna c); reflexivity. Qed.

Lemma median_notna (c : list (option Q)) :
  notna (median c) = negb (match dropna c with [] => true | _ => false end).
Proof.
  unfold median. rewrite Qsorted_length.
  destruct (dropna c) as [|x xs]; [reflexivity|].
  cbn [List.length]. destruct (Nat.odd (S (List.length xs))); reflexivity.
Qed.

Lemma finite_float_of (s : option Q) :
  finite_leaves (JFloat (float_of s)) = notna s.
Proof. destruct s; reflexivity. Qed.

Lemma dropna_nil_isna_all {A : Type} (c : list (option A)) :
  (match dropna c with [] => true | _ => false end) = isna_all c.
Proof. induction c as [|[x|] c IH]; simpl; auto. Qed.

Lemma isna_all_Qcol (col : list (option N)) : isna_all (Qcol col) = isna_all col.
Proof. induction col as [|[x|] col IH]; simpl; auto. Qed.

(** The overview is finite exactly when the upvotes column and the
    comment-count column each hold a value. *)
Lemma overview_finite (d : data) :
  finite_leaves (export_overview_stats d)
  = negb (isna_all (map upvotes (posts d)))
    && negb (isna_all (map comment_count (posts d))).
Proof.
  unfold export_overview_stats.
  change (finite_leaves (JFloat (float_of (mean (Qcol (map upvotes (posts d))))))
          && (finite_leaves (JFloat (float_of (median (Qcol (map upvotes (posts d))))))
              && (finite_leaves (JFloat (float_of
                                   (mean (Qcol (map comment_count (posts d))))))
                  && true))
          = negb (isna_all (map upvotes (posts d)))
            && negb (isna_all (map comment_count (posts d)))).
  rewrite !finite_float_of, !mean_notna, median_notna, !dropna_nil_isna_all,
    !isna_all_Qcol.
  destruct (isna_all (map upvotes (posts d))),
    (isna_all (map comment_count (posts d))); reflexivity.
Qed.

(** The sections of a document, the network section opened up. *)
Lemma dashboard_data_network (d : data) (now : string) (doc : json) :
  dashboard_data d now = Ok doc ->
  exists tp ta ts top ins,
    doc = JObj
      [ ("generated_at", JStr now);
        ("overview", export_overview_stats d);
        ("top_posts", tp);
        ("top_authors", ta);
        ("top_submolts", export_submolt_stats d 30);
        ("time_series", ts);
        ("network",
          JObj [ ("stats", JObj (network_stats d));
                 ("top_cross_posters", JList top);
                 ("top_bridge_authors",
                   JList (map bridge_entry
                              (firstn 20 (bridge_sorted (bridge_authors d))))) ]);
        ("insights", ins) ].
Proof.
  intros Hdoc. apply dashboard_data_sections in Hdoc.
  destruct Hdoc as (tp & ta & ts & net & ins & _ & _ & _ & Hnet & _ & ->).
  unfold export_network_data in Hnet.
  destruct (top_cross_posters (cross_posters d)) as [top|]; [|discriminate].
  cbn [bind] in Hnet. injection Hnet as <-.
  exists tp, ta, ts, top, ins. reflexivity.
Qed.

(** A document without a float that is not finite comes from a table whose
    upvotes and comment counts each hold a value, from finite network
    statistics and from finite scores of the listed bridge authors. *)
Lemma finite_document_numbers (d : data) (now : string) (doc : json) :
  dashboard_data d now = Ok doc ->
  finite_leaves doc = true ->
  numbers_finite d = true /\
  forallb finite_leaves
          (map bridge_entry (firstn 20 (bridge_sorted (bridge_authors d)))) = true.
Proof.
  intros Hdoc Hfin. apply dashboard_data_network in Hdoc.
  destruct Hdoc as (tp & ta & ts & top & ins & ->).
  cbn [finite_leaves forallb snd] in Hfin.
  repeat match goal with
         | H : (_ && _)%bool = true |- _ => apply andb_prop in H; destruct H
         end.
  split; [|assumption].
  unfold numbers_finite. rewrite <- overview_finite. cbn [finite_leaves].
  apply andb_true_intro. split; assumption.
Qed.

Lemma listed_score_finite (b : pydict pyfloat) (kv : string * pyfloat) :
  List.length b <= 20 -> In kv b ->
  forallb finite_leaves (map bridge_entry (firstn 20 (bridge_sorted b))) = true ->
  is_finite (snd kv) = true.
Proof.
  intros Hlen Hin Hfin.
  rewrite firstn_all2 in Hfin by (unfold bridge_sorted; rewrite stable_sort_length; lia).
  rewrite forallb_forall in Hfin.
  specialize (Hfin (bridge_entry kv)).
  assert (H : finite_leaves (bridge_entry kv) = true).
  { apply Hfin, in_map. unfold bridge_sorted. now apply stable_sort_In. }
  unfold bridge_entry in H. cbn [finite_leaves forallb snd] in H.
  destruct (snd kv); [reflexivity|discriminate|discriminate].
Qed.

(** X4.  What stops the writer.  When the upvotes column or the
    comment-count column of the posts holds no value, when the network
    statistics hold a float that is not finite, or when a bridge mapping of
    at most 20 authors holds a score that is NaN or infinite, the assembled
    document holds such a float: [json.dump] raises on it and leaves the
    output file incomplete.  The overview has no default for the mean and
    the median of an empty column, and the network statistics and the
    bridge scores are passed on as they were read. *)
Theorem undefined_statistics_stop_writer (d : data) (now : string) (doc : json) :
  dashboard_data d now = Ok doc ->
  numbers_finite d = false \/ bridge_score_not_finite d ->
  json_dump doc = (Raise nan_error, Truncated).
Proof.
  intros Hdoc Hn. unfold json_dump.
  destruct (finite_leaves doc) eqn:Hfin; [exfalso|reflexivity].
  destruct (finite_document_numbers d now Hdoc Hfin) as [Hnum Hbr].
  destruct Hn as [Hn|(Hlen & kv & Hin & Hkv)]; [congruence|].
  rewrite (listed_score_finite (bridge_authors d) kv Hlen Hin Hbr) in Hkv.
  discriminate.
Qed.

(** ** What nlargest selects *)

Lemma filter_notna_isna_perm {A K : Type} (col : A -> option K) (rows : list A) :
  Permutation (filter (fun r => notna (col r)) rows
               ++ filter (fun r => isna (col r)) rows) rows.
Proof.
  induction rows as [|r rows IH]; simpl; [constructor|].
  unfold isna in *. destruct (notna (col r)); simpl.
  - now constructor.
  - symmetry. apply Permutation_cons_app. now symmetry.
Qed.

Section NLargestSelection.
Context {A K : Type} (leb : K -> K -> bool) (col : A -> option K).
Variables (rows : list A) (R : A -> A -> Prop).
Hypothesis desc_R :
  forall x y a b, In x rows -> In y rows -> col x = Some a -> col y = Some b ->
                  leb b a = true -> R x y.
Hypothesis total_R :
  forall x y a b, In x rows -> In y rows -> col x = Some a -> col y = Some b ->
                  leb b a = false -> R y x.
Hypothesis trans_R : forall x y z, R x y -> R y z -> R x z.
Hypothesis missing_R :
  forall x y, In x rows -> In y rows -> col y = None -> R x y.

(** [nlargest] splits the rows into the listed ones and the rest; listed
    and rest together are in the order [R], so the listed rows are in that
    order and none of the rest comes before a listed row. *)
Lemma nlargest_selection (n : nat) :
  exists rest,
    Permutation (nlargest leb col n rows ++ rest) rows /\
    StronglySorted R (nlargest leb col n rows ++ rest) /\
    (rest <> [] -> List.length (nlargest leb col n rows) = n).
Proof.
  unfold nlargest.
  set (ranked := stable_sort (col_desc leb col) (filter (fun r => notna (col r)) rows)
                 ++ filter (fun r => isna (col r)) rows).
  exists (skipn n ranked). rewrite firstn_skipn. split; [|split].
  - unfold ranked. rewrite stable_sort_perm. apply filter_notna_isna_perm.
  - unfold ranked. apply StronglySorted_app_intro.
    + apply stable_sort_sorted
        with (P := fun r => In r rows /\ exists a, col r = Some a).
      * intros x y [Hx [a Ha]] [Hy [b Hb]] H. unfold col_desc in H.
        rewrite Ha, Hb in H. eauto.
      * intros x y [Hx [a Ha]] [Hy [b Hb]] H. unfold col_desc in H.
        rewrite Ha, Hb in H. eauto.
      * intros x y z _ _ _. apply trans_R.
      * apply Forall_forall. intros x Hx. apply filter_In in Hx.
        destruct Hx as [Hx Hn]. split; [exact Hx|].
        destruct (col x) as [a|]; [eauto|discriminate].
    + assert (H : forall l, incl l rows ->
                StronglySorted R (filter (fun r => isna (col r)) l)).
      { induction l as [|r l IH]; intros Hl; simpl; [constructor|].
        assert (Hl' : incl l rows) by (intros x Hx; apply Hl; now right).
        destruct (isna (col r)) eqn:E; [|auto].
        constructor; [auto|]. apply Forall_forall. intros y Hy.
        apply filter_In in Hy. destruct Hy as [Hy Hn].
        apply missing_R; [apply Hl; now left|now apply Hl'|].
        unfold isna in Hn. destruct (col y); [discriminate|reflexivity]. }
      apply H. intros x Hx. exact Hx.
    + intros x y Hx Hy. apply (proj1 (stable_sort_In _ _ _)) in Hx.
      apply filter_In in Hx. apply filter_In in Hy.
      destruct Hx as [Hx _], Hy as [Hy Hn]. apply missing_R; auto.
      unfold isna in Hn. destruct (col y); [discriminate|reflexivity].
  - intros Hrest. rewrite length_firstn.
    destruct (Nat.le_gt_cases n (List.length ranked)) as [|Hlt]; [lia|].
    rewrite skipn_all2 in Hrest by lia. congruence.
Qed.
End NLargestSelection.

Lemma nlargest_map {A B K : Type} (leb : K -> K -> bool) (col : B -> option K)
  (f : A -> B) (n : nat) (rows : list A) :
  nlargest leb col n (map f rows)
  = map f (nlargest leb (fun r => col (f r)) n rows).
Proof.
  unfold nlargest. rewrite <- firstn_map, map_app. f_equal. f_equal.
  - assert (E : forall l, filter (fun r => notna (col r)) (map f l)
                          = map f (filter (fun r => notna (col (f r))) l)).
    { induction l as [|x l IH]; simpl; [reflexivity|].
      destruct (notna (col (f x))); simpl; now rewrite IH. }
    rewrite E. apply stable_sort_map. reflexivity.
  - induction rows as [|x l IH]; simpl; [reflexivity|].
    destruct (isna (col (f x))); simpl; now rewrite IH.
Qed.

(** ** Top posts: what is selected and how it is exported *)

Lemma top_post_record_fill (p : post) :
  top_post_record (fill_top_posts p) = exported_post p.
Proof.
  unfold top_post_record, fill_top_posts, exported_post. simpl.
  destruct (title p), (author_name p), (submolt_display_name p); reflexivity.
Qed.

(** X6.  The top-posts aggregator lists posts of the table, each once, in
    descending order of upvotes with missing upvotes last; a post it leaves
    out has no more upvotes than any listed one, and posts are left out only
    when 20 are listed.  A missing or empty title is exported as "Untitled",
    a missing author or submolt as "Unknown", a missing count as 0 and a
    missing timestamp as the empty string. *)
Theorem top_posts_selection (d : data) :
  match export_top_posts d 20 with
  | Ok j =>
      exists listed,
        j = JList (map exported_post listed) /\
        selects (fun x y => (exported_upvotes y <= exported_upvotes x)%N) 20
                (posts d) listed
  | Raise _ => posts d = []
  end.
Proof.
  unfold export_top_posts, check_nlargest_dtype.
  destruct (numeric_dtype (posts d)) eqn:Hn; cbn [bind];
    [|destruct (posts d); [reflexivity|discriminate Hn]].
  exists (nlargest N.leb upvotes 20 (posts d)). split.
  - unfold top_posts_rows. rewrite nlargest_map, map_map. f_equal.
    apply map_ext. apply top_post_record_fill.
  - apply nlargest_selection.
    + intros x y a b _ _ Ha Hb H. unfold exported_upvotes. rewrite Ha, Hb.
      simpl. now apply N.leb_le.
    + intros x y a b _ _ Ha Hb H. unfold exported_upvotes. rewrite Ha, Hb.
      simpl. apply N.leb_gt in H. lia.
    + intros x y z. lia.
    + intros x y _ _ Hy. unfold exported_upvotes. rewrite Hy. simpl. lia.
Qed.

(** ** Top authors: the three rankings *)

Lemma fillna0_stats_filled (t : list (nat * author_row)) (x : nat * author_row) :
  In x (fillna0_stats t) ->
  total_posts (snd x) = Some (posts_of x) /\
  engagement_rate (snd x) = Some (stat_of engagement_rate x) /\
  consistency_score (snd x) = Some (stat_of consistency_score x).
Proof.
  intros H. apply fillna0_stats_In in H. destruct H as [r [_ Hx]].
  unfold posts_of, stat_of. rewrite Hx. simpl.
  destruct (total_posts r), (engagement_rate r), (consistency_score r); auto.
Qed.

Lemma nlargest_selection_Q (col : author_row -> option Q)
  (rows : list (nat * author_row)) (n : nat) :
  (forall x, In x rows -> col (snd x) = Some (stat_of col x)) ->
  selects (fun x y => (stat_of col y <= stat_of col x)%Q) n rows
          (nlargest Qle_bool (fun ir => col (snd ir)) n rows).
Proof.
  intros Hfilled. apply nlargest_selection.
  - intros x y a b Hx Hy Ha Hb H.
    rewrite (Hfilled x Hx) in Ha. rewrite (Hfilled y Hy) in Hb.
    injection Ha as <-. injection Hb as <-. now apply Qle_bool_iff.
  - intros x y a b Hx Hy Ha Hb H.
    rewrite (Hfilled x Hx) in Ha. rewrite (Hfilled y Hy) in Hb.
    injection Ha as <-. injection Hb as <-.
    apply Qlt_le_weak, Qnot_le_lt. intros Hle. apply Qle_bool_iff in Hle. congruence.
  - intros x y z Hxy Hyz. eapply Qle_trans; eassumption.
  - intros x y _ Hy Hnone. rewrite (Hfilled y Hy) in Hnone. discriminate.
Qed.

(** X7.  The three rankings of the top-authors aggregator.  [by_engagement] and
    [by_consistency] select among the rows with at least 5 posts, in
    descending order of the engagement rate and of the consistency score;
    [by_posts] selects among all rows, in descending order of the post
    count.  A row that is left out never has a larger value than a listed
    one, and rows are left out only when 20 are listed. *)
Theorem top_authors_ranked (d : data) :
  match export_top_authors d 20 with
  | Ok j =>
      exists eng pst con,
        j = JObj [ ("by_engagement", JList (map engagement_entry eng));
                   ("by_posts", JList (map posts_entry pst));
                   ("by_consistency", JList (map consistency_entry con)) ] /\
        selects (fun x y => (stat_of engagement_rate y <= stat_of engagement_rate x)%Q)
                20 (active_authors (fillna0_stats (author_stats d))) eng /\
        selects (fun x y => (posts_of y <= posts_of x)%N)
                20 (fillna0_stats (author_stats d)) pst /\
        selects (fun x y => (stat_of consistency_score y <= stat_of consistency_score x)%Q)
                20 (active_authors (fillna0_stats (author_stats d))) con
  | Raise _ => author_stats d = []
  end.
Proof.
  unfold export_top_authors, check_nlargest_dtype.
  destruct (numeric_dtype (author_stats d)) eqn:Hn; cbn [bind];
    [|destruct (author_stats d); [reflexivity|discriminate Hn]].
  exists (by_engagement_rows d 20), (by_posts_rows d 20), (by_consistency_rows d 20).
  split; [reflexivity|].
  assert (Hact : forall x, In x (active_authors (fillna0_stats (author_stats d))) ->
                           In x (fillna0_stats (author_stats d))).
  { intros x Hx. unfold active_authors in Hx. apply filter_In in Hx. tauto. }
  split; [|split].
  - apply nlargest_selection_Q. intros x Hx.
    apply Hact, fillna0_stats_filled in Hx. tauto.
  - apply nlargest_selection.
    + intros x y a b Hx Hy Ha Hb H.
      apply fillna0_stats_filled in Hx, Hy.
      destruct Hx as [Hx _], Hy as [Hy _]. rewrite Hx in Ha. rewrite Hy in Hb.
      injection Ha as <-. injection Hb as <-. now apply N.leb_le.
    + intros x y a b Hx Hy Ha Hb H.
      apply fillna0_stats_filled in Hx, Hy.
      destruct Hx as [Hx _], Hy as [Hy _]. rewrite Hx in Ha. rewrite Hy in Hb.
      injection Ha as <-. injection Hb as <-. apply N.leb_gt in H. lia.
    + intros x y z. lia.
    + intros x y _ Hy Hnone. apply fillna0_stats_filled in Hy.
      destruct Hy as [Hy _]. rewrite Hy in Hnone. discriminate.
  - apply nlargest_selection_Q. intros x Hx.
    apply Hact, fillna0_stats_filled in Hx. tauto.
Qed.

(** ** The network section *)

Lemma float_ltb_false (x y : pyfloat) :
  x <> PNaN -> y <> PNaN -> float_ltb x y = false -> float_le y x.
Proof.
  destruct x as [a| |[|]], y as [b| |[|]]; simpl; try congruence; try tauto.
  intros _ _ H. apply Qle_bool_iff. now destruct (Qle_bool b a).
Qed.

Lemma float_ltb_true (x y : pyfloat) : float_ltb x y = true -> float_le x y.
Proof.
  destruct x as [a| |[|]], y as [b| |[|]]; simpl; try congruence; try tauto.
  intros H. apply Qlt_le_weak, Qnot_le_lt. intros Hle.
  apply Qle_bool_iff in Hle. rewrite Hle in H. discriminate.
Qed.

Lemma float_le_trans (x y z : pyfloat) :
  float_le x y -> float_le y z -> float_le x z.
Proof.
  destruct x as [a| |[|]], y as [b| |[|]], z as [c| |[|]]; simpl; try tauto.
  apply Qle_trans.
Qed.

(** X8.  The ranking of the bridge authors.  When no score of the bridge
    mapping is NaN, a network section that the aggregator returns holds the
    network statistics as they were loaded, and [top_bridge_authors] lists
    at most 20 members of the mapping in descending order of their score,
    an infinite score ranked as Python orders it; no member left out has a
    higher score than a listed one, and members are left out only when 20
    are listed. *)
Theorem top_bridge_authors_ranked (d : data) (net : json) :
  no_nan_score (bridge_authors d) ->
  export_network_data d = Ok net ->
  exists ranked,
    get_field "stats" net = Some (JObj (network_stats d)) /\
    get_field "top_bridge_authors" net = Some (JList (map bridge_entry ranked)) /\
    List.length ranked <= 20 /\
    selects (fun x y : string * pyfloat => float_le (snd y) (snd x)) 20
            (bridge_authors d) ranked.
Proof.
  intros Hnan Hnet. unfold export_network_data in Hnet.
  destruct (top_cross_posters (cross_posters d)) as [top|]; [|discriminate].
  cbn [bind] in Hnet. injection Hnet as <-.
  exists (firstn 20 (bridge_sorted (bridge_authors d))).
  split; [reflexivity|]. split; [reflexivity|].
  split; [apply firstn_le_length|].
  exists (skipn 20 (bridge_sorted (bridge_authors d))).
  rewrite firstn_skipn. split; [|split].
  - apply stable_sort_perm.
  - unfold bridge_sorted.
    apply stable_sort_sorted with (P := fun kv : string * pyfloat => snd kv <> PNaN).
    + intros x y Hx Hy H. apply float_ltb_false; [assumption|assumption|].
      now destruct (float_ltb (snd x) (snd y)).
    + intros x y _ _ H. apply float_ltb_true.
      now destruct (float_ltb (snd x) (snd y)).
    + intros x y z _ _ _ Hxy Hyz. eapply float_le_trans; eassumption.
    + apply Forall_forall. exact Hnan.
  - intros Hrest. rewrite length_firstn.
    destruct (Nat.le_gt_cases 20 (List.length (bridge_sorted (bridge_authors d))))
      as [|Hlt]; [lia|].
    rewrite skipn_all2 in Hrest by lia. congruence.
Qed.

(** ** Ties in the cross-poster ranking *)

Lemma insert_stable_ties {A : Type} (key : A -> nat) (c : nat) (x : A) (l : list A) :
  filter (fun y => Nat.eqb (key y) c) (insert_stable (desc_by Nat.leb key) x l)
  = filter (fun y => Nat.eqb (key y) c) (x :: l).
Proof.
  induction l as [|y l IH]; [reflexivity|].
  cbn [insert_stable]. unfold desc_by at 1.
  destruct (Nat.leb (key y) (key x)) eqn:E; [reflexivity|].
  apply Nat.leb_gt in E.
  cbn [filter] in *. rewrite IH.
  destruct (Nat.eqb (key x) c) eqn:Ex; destruct (Nat.eqb (key y) c) eqn:Ey; try reflexivity.
  apply Nat.eqb_eq in Ex, Ey. lia.
Qed.

Lemma stable_sort_ties {A : Type} (key : A -> nat) (c : nat) (l : list A) :
  filter (fun y => Nat.eqb (key y) c) (stable_sort (desc_by Nat.leb key) l)
  = filter (fun y => Nat.eqb (key y) c) l.
Proof.
  induction l as [|x l IH]; [reflexivity|].
  cbn [stable_sort fold_right]. rewrite insert_stable_ties.
  cbn [filter]. fold (stable_sort (desc_by Nat.leb key) l). now rewrite IH.
Qed.

(** X9.  Authors with equally long submolt lists are ranked in the order in
    which the cross-poster mapping holds them. *)
Theorem cross_poster_ties_keep_order (cp : pydict (list string)) (c : nat) :
  filter (fun ac => Nat.eqb (snd ac) c) (cross_poster_counts cp)
  = map (fun kv => (fst kv, List.length (snd kv)))
        (filter (fun kv => Nat.eqb (List.length (snd kv)) c) cp).
Proof.
  unfold cross_poster_counts. rewrite stable_sort_ties.
  induction cp as [|kv cp IH]; [reflexivity|].
  cbn [map filter snd]. destruct (Nat.eqb (List.length (snd kv)) c); cbn [map];
    now rewrite IH.
Qed.

(** ** Top submolts *)

Lemma fill_submolt_key (p : post) :
  submolt_display_name (fill_submolt p) = Some (submolt_of p).
Proof. unfold submolt_of. destruct p as [? ? ? [s|] ? ? ? ?]; reflexivity. Qed.

(** X10.  The top-submolts aggregator has one row per submolt name of the posts
    table, a missing name counted under "Unknown"; it lists at most 30 of
    them in descending order of their post count, leaves a row out only
    when 30 are listed, and never one with more posts than a listed one. *)
Theorem top_submolts_ranked (d : data) :
  NoDup (map fst (submolt_stats d)) /\
  (forall name, In name (map fst (submolt_stats d))
                <-> exists p, In p (posts d) /\ submolt_of p = name) /\
  exists listed,
    export_submolt_stats d 30 = JList (map submolt_entry listed) /\
    List.length listed <= 30 /\
    selects (fun x y : string * submolt_row =>
               post_count (snd y) <= post_count (snd x)) 30
            (submolt_stats d) listed.
Proof.
  assert (Hkeys : map fst (submolt_stats d)
                  = group_keys String.eqb String.leb submolt_display_name
                               (map fill_submolt (posts d))).
  { unfold submolt_stats. rewrite map_map. simpl.
    apply (groupby_keys String.eqb String.leb). }
  split; [rewrite Hkeys; apply group_keys_NoDup, String.eqb_eq|].
  split.
  - intros name. rewrite Hkeys.
    rewrite (group_keys_In String.eqb String.leb _ String.eqb_eq).
    split.
    + intros [r [Hr Hk]]. apply in_map_iff in Hr. destruct Hr as [p [<- Hp]].
      rewrite fill_submolt_key in Hk. inversion Hk. eauto.
    + intros [p [Hp Hk]]. exists (fill_submolt p). split; [now apply in_map|].
      rewrite fill_submolt_key. now rewrite Hk.
  - exists (nlargest Nat.leb (fun sr => Some (post_count (snd sr))) 30 (submolt_stats d)).
    split; [reflexivity|]. split.
    + rewrite nlargest_length. lia.
    + apply nlargest_selection.
      * intros x y a b _ _ Ha Hb H. injection Ha as <-. injection Hb as <-.
        now apply Nat.leb_le.
      * intros x y a b _ _ Ha Hb H. injection Ha as <-. injection Hb as <-.
        apply Nat.leb_gt in H. lia.
      * intros x y z. lia.
      * intros x y _ _ Hy. discriminate.
Qed.

(** ** Sums over groups *)



Lemma natsum_app (l1 l2 : list nat) : natsum (l1 ++ l2) = natsum l1 + natsum l2.
Proof. induction l1 as [|x l1 IH]; simpl; [reflexivity|]. rewrite IH. lia. Qed.

Lemma natsum_perm (l1 l2 : list nat) : Permutation l1 l2 -> natsum l1 = natsum l2.
Proof. induction 1; simpl; lia. Qed.


Lemma notna_sum_measure {A B : Type} (f : A -> option B) (l : list A) :
  notna_sum (map f l) = natsum (map (fun x => if notna (f x) then 1 else 0) l).
Proof.
  unfold notna_sum. induction l as [|x l IH]; [reflexivity|].
  simpl. destruct (f x); simpl; now rewrite IH.
Qed.


Lemma natsum_concat {A : Type} (m : A -> nat) (ls : list (list A)) :
  natsum (map m (List.concat ls)) = natsum (map (fun l => natsum (map m l)) ls).
Proof.
  induction ls as [|l ls IH]; [reflexivity|].
  simpl. now rewrite map_app, natsum_app, IH.
Qed.






(** ** The time series *)

Lemma date_key_posts (d : data) (dt : string) :
  (exists r, In r (map (fun p => (p, parsed (created_at p)))
                       (map fill_upvotes (posts d)))
             /\ date_key r = Some dt)
  <-> exists p, In p (posts d) /\ post_date p = Some dt.
Proof.
  split.
  - intros [r [Hr Hh]]. apply in_map_iff in Hr. destruct Hr as [p' [<- Hp']].
    apply in_map_iff in Hp'. destruct Hp' as [p [<- Hp]]. exists p. auto.
  - intros [p [Hp Hh]]. exists (fill_upvotes p, parsed (created_at p)).
    split; [|exact Hh].
    apply in_map_iff. exists (fill_upvotes p). split; [reflexivity|].
    now apply in_map.
Qed.

(** X12.  The daily series has one entry per calendar date on which some post
    was created, in ascending order of the date. *)
Theorem daily_posts_dates (d : data) (ts : json) :
  export_time_series d = Ok ts -> daily_dates d ts.
Proof.
  intros H. apply time_series_rows in H. cbv zeta in H. subst ts.
  set (rows := map (fun p => (p, parsed (created_at p)))
                   (map fill_upvotes (posts d))).
  exists (map (daily_record (existsb isna (map upvotes (posts d)))) (by_date rows)),
         (group_keys String.eqb String.leb date_key rows).
  split; [reflexivity|]. split; [|split].
  - unfold by_date. rewrite <- (groupby_keys String.eqb String.leb date_key rows).
    rewrite !map_map. apply map_ext. reflexivity.
  - apply group_keys_ascending_str.
  - intros dt. rewrite (group_keys_In String.eqb String.leb date_key String.eqb_eq).
    apply date_key_posts.
Qed.

Lemma id_count_measure (g : list timed) : id_count g = natsum (map has_id g).
Proof. unfold id_count. apply (notna_sum_measure (fun r : timed => post_id (fst r))). Qed.

Lemma counted_rows (ps : list post) :
  natsum (map has_id
              (filter (fun r : timed => notna (snd r))
                      (map (fun p => (p, parsed (created_at p))) (map fill_upvotes ps))))
  = List.length (filter counted ps).
Proof.
  induction ps as [|p ps IH]; [reflexivity|].
  cbn [map filter snd]. change (created_at (fill_upvotes p)) with (created_at p).
  unfold counted at 1.
  destruct (parsed (created_at p)) as [t|]; cbn [notna].
  - rewrite andb_true_r. cbn [map]. unfold has_id at 1. cbn [fst].
    change (post_id (fill_upvotes p)) with (post_id p).
    destruct (post_id p); cbn [notna List.length].
    + change (S (natsum (map has_id
                (filter (fun r : timed => notna (snd r))
                   (map (fun p => (p, parsed (created_at p))) (map fill_upvotes ps)))))
              = S (List.length (filter counted ps))).
      now rewrite IH.
    + exact IH.
  - rewrite andb_false_r. exact IH.
Qed.

Lemma group_counts_add_up {K : Type} (eqb leb : K -> K -> bool)
  (key : timed -> option K) (ps : list post) :
  (forall x y, eqb x y = true <-> x = y) ->
  (forall r, notna (key r) = notna (snd r)) ->
  natsum (map (fun g => id_count (snd g))
              (groupby eqb leb key
                       (map (fun p => (p, parsed (created_at p))) (map fill_upvotes ps))))
  = List.length (filter counted ps).
Proof.
  intros Heq Hkey.
  rewrite (map_ext _ (fun g => natsum (map has_id (snd g))))
    by (intros g; apply id_count_measure).
  rewrite <- (map_map snd (fun l => natsum (map has_id l))), <- natsum_concat.
  rewrite (natsum_perm (Permutation_map _ (groupby_partition eqb leb key Heq _))).
  rewrite (filter_ext _ _ Hkey). apply counted_rows.
Qed.

Lemma day_name_in_order (t : datetime) : In (day_name t) day_order.
Proof.
  unfold day_name. apply nth_In. unfold weekday. simpl List.length.
  pose proof (Z.mod_pos_bound (dt_days t + 3) 7 ltac:(lia)). lia.
Qed.

Lemma weekday_of_row (r : timed) :
  existsb (fun k => in_group String.eqb day_key k r) day_order = notna (snd r).
Proof.
  unfold in_group, day_key. destruct (snd r) as [t|]; cbn [option_map notna].
  - apply existsb_exists. exists (day_name t).
    split; [apply day_name_in_order|apply String.eqb_refl].
  - reflexivity.
Qed.

Lemma day_order_NoDup : NoDup day_order.
Proof.
  unfold day_order.
  repeat (constructor; [simpl; intros H;
                        repeat (destruct H as [H|H]; [discriminate H|]); exact H|]).
  constructor.
Qed.

Lemma day_record_count (rows : list timed) (day : string) :
  In day day_order ->
  get_field "id"
    (day_record (existsb (fun day0 => isna (assoc day0 (by_day rows))) day_order)
                (by_day rows) day)
  = Some (int_or_float
            (existsb (fun day0 => isna (assoc day0 (by_day rows))) day_order)
            (Z.of_nat (id_count (filter (in_group String.eqb day_key day) rows)))).
Proof.
  intros Hday. unfold day_record.
  destruct (assoc day (by_day rows)) as [g|] eqn:E.
  - unfold by_day, groupby in E. rewrite assoc_keyed in E.
    destruct (existsb (String.eqb day) _); inversion E. reflexivity.
  - assert (Hflag : existsb (fun day0 => isna (assoc day0 (by_day rows))) day_order
                    = true).
    { apply existsb_exists. exists day. split; [exact Hday|]. now rewrite E. }
    rewrite Hflag.
    assert (Hnil : filter (in_group String.eqb day_key day) rows = []).
    { unfold by_day, groupby in E. rewrite assoc_keyed in E.
      destruct (existsb (String.eqb day)
                        (group_keys String.eqb String.leb day_key rows)) eqn:Ex;
        [discriminate|].
      destruct (filter (in_group String.eqb day_key day) rows) as [|r l] eqn:Ef;
        [reflexivity|].
      exfalso. assert (Hr : In r (filter (in_group String.eqb day_key day) rows))
        by (rewrite Ef; now left).
      apply filter_In in Hr. destruct Hr as [Hr Hg].
      unfold in_group in Hg. destruct (day_key r) as [k|] eqn:Ek; [|discriminate].
      apply String.eqb_eq in Hg. subst k.
      assert (Hin : In day (group_keys String.eqb String.leb day_key rows))
        by (apply (group_keys_In String.eqb String.leb day_key String.eqb_eq); eauto).
      apply not_true_iff_false in Ex. apply Ex. apply existsb_exists.
      exists day. split; [exact Hin|apply String.eqb_refl]. }
    rewrite Hnil. reflexivity.
Qed.

Lemma day_of_week_ids (rows : list timed) :
  map (get_field "id") (day_of_week_pattern rows)
  = map (fun c => Some (int_or_float
                          (existsb (fun day0 => isna (assoc day0 (by_day rows)))
                                   day_order)
                          (Z.of_nat c)))
        (map (fun day => id_count (filter (in_group String.eqb day_key day) rows))
             day_order).
Proof.
  destruct rows as [|r l]; [reflexivity|].
  rewrite day_of_week_pattern_rows by discriminate.
  rewrite !map_map. apply map_ext_in.
  intros day Hday. now apply day_record_count.
Qed.

(** X13.  Each post with an identifier and a timestamp is counted once in the
    daily series, once in the hourly pattern and once in the weekday
    pattern; a post without one of the two is counted in none. *)
Theorem time_series_counts (d : data) (ts : json) :
  export_time_series d = Ok ts -> series_counts d ts.
Proof.
  intros H. apply time_series_rows in H. cbv zeta in H. subst ts.
  set (rows := map (fun p => (p, parsed (created_at p)))
                   (map fill_upvotes (posts d))).
  exists (map (daily_record (existsb isna (map upvotes (posts d)))) (by_date rows)),
         (hourly_pattern d rows), (day_of_week_pattern rows),
         (map (fun g => id_count (snd g)) (by_date rows)),
         (map (fun g => id_count (snd g)) (by_hour rows)),
         (map (fun day => id_count (filter (in_group String.eqb day_key day) rows))
              day_order),
         (existsb (fun day0 => isna (assoc day0 (by_day rows))) day_order).
  split; [reflexivity|]. split; [reflexivity|]. split; [reflexivity|].
  split; [rewrite !map_map; apply map_ext; reflexivity|].
  split; [unfold hourly_pattern; rewrite !map_map; apply map_ext; reflexivity|].
  split; [apply day_of_week_ids|].
  split; [|split].
  - apply group_counts_add_up; [apply String.eqb_eq|].
    intros r. unfold date_key. now destruct (snd r).
  - apply group_counts_add_up; [apply Z.eqb_eq|].
    intros r. unfold hour_key. now destruct (snd r).
  - rewrite (map_ext _ (fun day => natsum (map has_id
                          (filter (in_group String.eqb day_key day) rows))))
      by (intros day; apply id_count_measure).
    rewrite <- (map_map (fun day => filter (in_group String.eqb day_key day) rows)
                        (fun l => natsum (map has_id l))).
    rewrite <- natsum_concat.
    rewrite (natsum_perm (Permutation_map _
               (groups_partition String.eqb day_key String.eqb_eq rows day_order_NoDup))).
    rewrite (filter_ext _ _ weekday_of_row). apply counted_rows.
Qed.

(** ** Counts *)

Lemma dedup_length {A : Type} (eqb : A -> A -> bool) (l : list A) :
  List.length (dedup eqb l) <= List.length l.
Proof.
  induction l as [|x l IH]; simpl; [lia|].
  pose proof (filter_length_le (fun y => negb (eqb x y)) (dedup eqb l)). lia.
Qed.

Lemma dropna_length {A : Type} (col : list (option A)) :
  List.length (dropna col) <= List.length col.
Proof. induction col as [|[x|] col IH]; simpl; lia. Qed.

Lemma nunique_le (col : list (option string)) : nunique col <= List.length col.
Proof.
  unfold nunique. pose proof (dedup_length String.eqb (dropna col)).
  pose proof (dropna_length col). lia.
Qed.

Lemma insights_counts (d : data) (ins : json) :
  export_insights d = Ok ins ->
  get_path ["content"; "total_posts"] ins = Some (JNat (List.length (posts d))) /\
  get_path ["authors"; "total"] ins = Some (JNat (nunique (map author_name (posts d)))) /\
  get_path ["content"; "total_submolts"] ins
  = Some (JNat (nunique (map submolt_display_name (posts d)))).
Proof.
  unfold export_insights.
  destruct (with_timestamps (map fill_insights (posts d))) as [rows|]; [|discriminate].
  cbn [bind].
  destruct (idxmax (group_means (by_hour rows))) as [bh|]; [|discriminate].
  cbn [bind].
  destruct (idxmax (group_means (by_day rows))) as [bd|]; [|discriminate].
  cbn [bind]. intros H. inversion H.
  cbn [get_path get_field assoc String.eqb Ascii.eqb Bool.eqb].
  rewrite length_map, !map_map. repeat split.
Qed.

(** X14.  The overview and the insights of a document report the same number of
    posts, of distinct authors and of distinct submolts, and the distinct
    counts do not exceed the number of posts. *)
Theorem document_counts_agree (d : data) (now : string) (doc : json) :
  dashboard_data d now = Ok doc -> counts_agree d doc.
Proof.
  intros Hdoc. apply dashboard_data_sections in Hdoc.
  destruct Hdoc as (tp & ta & ts & net & ins & _ & _ & _ & _ & Hins & ->).
  apply insights_counts in Hins. destruct Hins as (H1 & H2 & H3).
  exists (List.length (posts d)), (nunique (map author_name (posts d))),
         (nunique (map submolt_display_name (posts d))).
  split; [reflexivity|]. split; [reflexivity|]. split; [exact H1|].
  split; [reflexivity|]. split; [exact H2|]. split; [reflexivity|].
  split; [exact H3|].
  pose proof (nunique_le (map author_name (posts d))) as Ha.
  pose proof (nunique_le (map submolt_display_name (posts d))) as Hs.
  rewrite length_map in Ha, Hs. auto.
Qed.

(** ** The date range *)

Lemma str_min_fold (xs : list string) (x : string) :
  let r := fold_left (fun m s => if String.ltb s m then s else m) xs x in
  In r (x :: xs) /\ String.leb r x = true /\
  forall s, In s xs -> String.leb r s = true.
Proof.
  revert x. induction xs as [|y xs IH]; intros x; cbn [fold_left].
  - split; [now left|]. split; [apply string_leb_refl|intros s []].
  - destruct (IH (if String.ltb y x then y else x)) as (Hin & Hle & Hall).
    set (r := fold_left (fun m s => if String.ltb s m then s else m) xs
                        (if String.ltb y x then y else x)) in *.
    assert (Hm : String.leb (if String.ltb y x then y else x) x = true /\
                 String.leb (if String.ltb y x then y else x) y = true).
    { destruct (String.ltb y x) eqn:E.
      - apply string_ltb_leb in E. split; [tauto|apply string_leb_refl].
      - apply string_ltb_false in E. split; [apply string_leb_refl|exact E]. }
    destruct Hm as [Hmx Hmy].
    split; [|split].
    + destruct Hin as [Hin|Hin]; [|right; now right].
      rewrite <- Hin. destruct (String.ltb y x); [right; now left|now left].
    + eapply string_leb_trans; eassumption.
    + intros s [<-|Hs]; [eapply string_leb_trans; eassumption|auto].
Qed.

Lemma str_max_fold (xs : list string) (x : string) :
  let r := fold_left (fun m s => if String.ltb m s then s else m) xs x in
  In r (x :: xs) /\ String.leb x r = true /\
  forall s, In s xs -> String.leb s r = true.
Proof.
  revert x. induction xs as [|y xs IH]; intros x; cbn [fold_left].
  - split; [now left|]. split; [apply string_leb_refl|intros s []].
  - destruct (IH (if String.ltb x y then y else x)) as (Hin & Hle & Hall).
    set (r := fold_left (fun m s => if String.ltb m s then s else m) xs
                        (if String.ltb x y then y else x)) in *.
    assert (Hm : String.leb x (if String.ltb x y then y else x) = true /\
                 String.leb y (if String.ltb x y then y else x) = true).
    { destruct (String.ltb x y) eqn:E.
      - apply string_ltb_leb in E. split; [tauto|apply string_leb_refl].
      - apply string_ltb_false in E. split; [apply string_leb_refl|exact E]. }
    destruct Hm as [Hmx Hmy].
    split; [|split].
    + destruct Hin as [Hin|Hin]; [|right; now right].
      rewrite <- Hin. destruct (String.ltb x y); [right; now left|now left].
    + eapply string_leb_trans; eassumption.
    + intros s [<-|Hs]; [eapply string_leb_trans; eassumption|auto].
Qed.

(** X15.  The date range of the overview.  When no post has a timestamp both
    ends are the text "nan".  When every post has one, the start and the
    end are timestamps of posts, as written in the table, and every
    timestamp of the table lies between them in the order of strings. *)
Theorem date_range_bounds (d : data) :
  exists lo hi,
    get_path ["date_range"; "start"] (export_overview_stats d) = Some (JStr lo) /\
    get_path ["date_range"; "end"] (export_overview_stats d) = Some (JStr hi) /\
    ((forall p, In p (posts d) -> created_at p = None) -> lo = "nan" /\ hi = "nan") /\
    ((forall q, In q (posts d) -> created_at q <> None) ->
     forall p s, In p (posts d) -> created_at p = Some s ->
       String.leb lo s = true /\ String.leb s hi = true /\
       (exists q, In q (posts d) /\ created_at q = Some lo) /\
       (exists q, In q (posts d) /\ created_at q = Some hi)).
Proof.
  exists (str_min (map created_at (posts d))), (str_max (map created_at (posts d))).
  split; [reflexivity|]. split; [reflexivity|].
  assert (Hcol : forall s, In s (dropna (map created_at (posts d)))
                           <-> exists p, In p (posts d) /\ created_at p = Some s).
  { intros s. rewrite (dropna_In String.eqb). rewrite in_map_iff.
    split; intros [p Hp]; exists p; tauto. }
  unfold str_min, str_max. split.
  - intros Hnone.
    destruct (dropna (map created_at (posts d))) as [|x xs] eqn:E; [auto|].
    exfalso. destruct (proj1 (Hcol x)) as [p [Hp Hc]]; [now left|].
    rewrite (Hnone p Hp) in Hc. discriminate.
  - intros _ p s Hp Hs.
    assert (Hin : In s (dropna (map created_at (posts d)))) by (apply Hcol; eauto).
    destruct (dropna (map created_at (posts d))) as [|x xs] eqn:E; [contradiction|].
    destruct (str_min_fold xs x) as (Hlo & Hlox & Hloall).
    destruct (str_max_fold xs x) as (Hhi & Hhix & Hhiall).
    cbv zeta in *.
    split; [destruct Hin as [<-|Hin]; auto|].
    split; [destruct Hin as [<-|Hin]; auto|].
    split; apply Hcol; assumption.
Qed.

(** ** Rankings and the count of active authors *)

Lemma active_authors_count (t : list (nat * author_row)) :
  List.length (active_authors (fillna0_stats t))
  = List.length (filter (fun ir => (5 <=? posts_of ir)%N) t).
Proof.
  unfold active_authors, fillna0_stats.
  induction t as [|[i r] t IH]; [reflexivity|].
  cbn [map filter fst snd].
  replace (at_least_5_posts (i, fillna0_author r)) with (5 <=? posts_of (i, r))%N
    by (unfold at_least_5_posts, posts_of; simpl; now destruct (total_posts r)).
  destruct (5 <=? posts_of (i, r))%N; cbn [List.length]; now rewrite IH.
Qed.

(** X16.  In a document [insights.authors.active_5plus] is the number of rows
    of the author statistics with at least 5 posts, a missing count read as
    0, and the rankings by engagement and by consistency each list that
    many authors, up to 20. *)
Theorem active_count_matches_rankings (d : data) (now : string) (doc : json) :
  dashboard_data d now = Ok doc -> active_rankings d doc.
Proof.
  intros Hdoc. apply dashboard_data_sections in Hdoc.
  destruct Hdoc as (tp & ta & ts & net & ins & _ & Hta & _ & _ & Hins & ->).
  unfold export_top_authors in Hta.
  destruct (check_nlargest_dtype "engagement_rate" (author_stats d)); [|discriminate].
  cbn [bind] in Hta.
  destruct (check_nlargest_dtype "total_posts" (author_stats d)); [|discriminate].
  cbn [bind] in Hta.
  destruct (check_nlargest_dtype "consistency_score" (author_stats d)); [|discriminate].
  cbn [bind] in Hta. inversion Hta; subst ta. clear Hta.
  unfold export_insights in Hins.
  destruct (with_timestamps (map fill_insights (posts d))) as [rows|]; [|discriminate].
  cbn [bind] in Hins.
  destruct (idxmax (group_means (by_hour rows))) as [bh|]; [|discriminate].
  cbn [bind] in Hins.
  destruct (idxmax (group_means (by_day rows))) as [bd|]; [|discriminate].
  cbn [bind] in Hins. inversion Hins; subst ins. clear Hins.
  unfold active_rankings, authors_with_5_posts.
  rewrite <- active_authors_count.
  exists (map engagement_entry (by_engagement_rows d 20)),
         (map consistency_entry (by_consistency_rows d 20)).
  split; [reflexivity|]. split; [reflexivity|]. split; [reflexivity|].
  unfold by_engagement_rows, by_consistency_rows.
  rewrite !length_map, !nlargest_length. auto.
Qed.

(** ** The hourly pattern and the best hour *)

Lemma time_series_rows_hour (df : list post) (h : Z) :
  map (fun r : timed => upvotes (fst r))
      (filter (in_group Z.eqb hour_key h)
              (map (fun p => (p, parsed (created_at p))) (map fill_upvotes df)))
  = map (fun p => fillna 0%N (upvotes p))
        (filter (fun p => match post_hour p with
                          | Some h' => Z.eqb h h'
                          | None => false
                          end) df).
Proof.
  induction df as [|p df IH]; [reflexivity|].
  cbn [map filter].
  change (in_group Z.eqb hour_key h
            (fill_upvotes p, parsed (created_at (fill_upvotes p))))
    with (match post_hour p with Some h' => Z.eqb h h' | None => false end).
  destruct (match post_hour p with Some h' => Z.eqb h h' | None => false end);
    cbn [map]; now rewrite IH.
Qed.

Lemma float_of_filled (x : option Q) :
  float_of (fillna 0%Q x) = fin (or_else 0%Q x).
Proof. destruct x; reflexivity. Qed.

(** X17.  The time series and the insights agree on the hours: the hourly
    pattern holds, for each hour with a post, the mean upvotes of the posts
    of that hour, and the best hour of the insights is one of these hours,
    with a mean that no hour of the pattern exceeds. *)
Theorem best_hour_matches_pattern (d : data) (now : string) (doc : json) :
  dashboard_data d now = Ok doc -> best_hour_in_pattern d doc.
Proof.
  intros Hdoc. apply dashboard_data_sections in Hdoc.
  destruct Hdoc as (tp & ta & ts & net & ins & _ & _ & Hts & _ & Hins & ->).
  apply time_series_rows in Hts. cbv zeta in Hts. subst ts.
  destruct (@best_hour_and_day_rows d ins Hins) as (h & Hpath & Hin & Hmax).
  set (rows := map (fun p => (p, parsed (created_at p)))
                   (map fill_upvotes (posts d))).
  set (keys := group_keys Z.eqb Z.leb hour_key rows).
  assert (Hkeys : forall k, In k keys
                            <-> exists p, In p (posts d) /\ post_hour p = Some k).
  { intros k. unfold keys. rewrite (group_keys_In Z.eqb Z.leb hour_key Z.eqb_eq).
    apply hour_key_posts. }
  exists (hourly_pattern d rows),
         (map (fun k => (k, mean_upvotes (posts_at_hour d k))) keys),
         h, (existsb isna (map created_at (posts d))).
  split; [reflexivity|]. split; [exact Hpath|].
  split; [|split; [|split; [|split]]].
  - unfold hourly_pattern, by_hour, groupby. fold keys. rewrite !map_map.
    apply map_ext. reflexivity.
  - unfold hourly_pattern, by_hour, groupby. fold keys. rewrite !map_map.
    apply map_ext. intros k. unfold hourly_record.
    cbn [get_field assoc String.eqb Ascii.eqb Bool.eqb fst snd].
    rewrite float_of_filled. unfold upvotes_mean, mean_upvotes, posts_at_hour.
    unfold rows. now rewrite time_series_rows_hour.
  - intros hm Hhm. apply in_map_iff in Hhm. destruct Hhm as [k [<- _]]. reflexivity.
  - apply in_map_iff. exists h. split; [reflexivity|]. now apply Hkeys.
  - intros hm Hhm. apply in_map_iff in Hhm. destruct Hhm as [k [<- Hk]].
    cbn [snd]. apply Hmax. now apply Hkeys.
Qed.

(** ** The other optional files *)

Lemma load_without_bridge_authors (fs : files) :
  load_all_data (without_bridge_authors fs)
  = (d <- load_all_data fs ;; Ok (no_bridge_authors d)).
Proof.
  unfold load_all_data, without_bridge_authors, no_bridge_authors.
  destruct (posts_latest_csv fs), (author_stats_csv fs); reflexivity.
Qed.

Lemma load_without_network_stats (fs : files) :
  load_all_data (without_network_stats fs)
  = (d <- load_all_data fs ;; Ok (no_network_stats d)).
Proof.
  unfold load_all_data, without_network_stats, no_network_stats.
  destruct (posts_latest_csv fs), (author_stats_csv fs); reflexivity.
Qed.

Lemma dashboard_data_no_bridge_authors (d : data) (now : string) :
  dashboard_data (no_bridge_authors d) now
  = (doc <- dashboard_data d now ;;
     Ok (set_path ["network"; "top_bridge_authors"] (JList []) doc)).
Proof.
  unfold dashboard_data, export_network_data.
  change (cross_posters (no_bridge_authors d)) with (cross_posters d).
  change (export_top_posts (no_bridge_authors d) 20) with (export_top_posts d 20).
  change (export_top_authors (no_bridge_authors d) 20) with (export_top_authors d 20).
  change (export_time_series (no_bridge_authors d)) with (export_time_series d).
  change (export_insights (no_bridge_authors d)) with (export_insights d).
  destruct (export_top_posts d 20) as [tp|]; [|reflexivity].
  destruct (export_top_authors d 20) as [ta|]; [|reflexivity].
  destruct (export_time_series d) as [ts|]; [|reflexivity].
  destruct (top_cross_posters (cross_posters d)) as [top|]; [|reflexivity].
  destruct (export_insights d) as [ins|]; reflexivity.
Qed.

Lemma dashboard_data_no_network_stats (d : data) (now : string) :
  dashboard_data (no_network_stats d) now
  = (doc <- dashboard_data d now ;;
     Ok (set_path ["network"; "stats"] (JObj []) doc)).
Proof.
  unfold dashboard_data, export_network_data.
  change (cross_posters (no_network_stats d)) with (cross_posters d).
  change (export_top_posts (no_network_stats d) 20) with (export_top_posts d 20).
  change (export_top_authors (no_network_stats d) 20) with (export_top_authors d 20).
  change (export_time_series (no_network_stats d)) with (export_time_series d).
  change (export_insights (no_network_stats d)) with (export_insights d).
  destruct (export_top_posts d 20) as [tp|]; [|reflexivity].
  destruct (export_top_authors d 20) as [ta|]; [|reflexivity].
  destruct (export_time_series d) as [ts|]; [|reflexivity].
  destruct (top_cross_posters (cross_posters d)) as [top|]; [|reflexivity].
  destruct (export_insights d) as [ins|]; reflexivity.
Qed.

Lemma cleared_places_finite (d : data) (now : string) (doc : json) :
  dashboard_data d now = Ok doc ->
  finite_leaves doc = true ->
  finite_leaves (set_path ["network"; "top_bridge_authors"] (JList []) doc) = true /\
  finite_leaves (set_path ["network"; "stats"] (JObj []) doc) = true.
Proof.
  intros Hdoc Hfin. apply dashboard_data_network in Hdoc.
  destruct Hdoc as (tp & ta & ts & top & ins & ->).
  cbn [set_path assoc assoc_set String.eqb Ascii.eqb Bool.eqb].
  cbn [finite_leaves forallb snd] in *.
  repeat match goal with
         | H : (_ && _)%bool = true |- _ => apply andb_prop in H; destruct H
         end.
  repeat match goal with
         | H : true = true |- _ => clear H
         | H : _ = true |- _ => try rewrite H; clear H
         end.
  split; reflexivity.
Qed.

(** X18.  The other two optional files.  When a run writes a document, the
    run without the bridge-author file writes the same document with
    [network.top_bridge_authors] empty, and the run without the
    network-statistics file writes it with [network.stats] empty.  A run
    that raises before the output file is opened raises in the same way
    without the network statistics. *)
Theorem missing_optional_files (fs : files) (now : string) :
  match main fs now with
  | (Ok _, Complete doc) =>
      main (without_bridge_authors fs) now
      = (Ok tt, Complete (set_path ["network"; "top_bridge_authors"] (JList []) doc)) /\
      main (without_network_stats fs) now
      = (Ok tt, Complete (set_path ["network"; "stats"] (JObj []) doc))
  | (Raise e, Untouched) =>
      main (without_network_stats fs) now = (Raise e, Untouched)
  | _ => True
  end.
Proof.
  unfold main.
  rewrite load_without_bridge_authors, load_without_network_stats.
  destruct (load_all_data fs) as [d|e]; cbn [bind]; [|reflexivity].
  rewrite dashboard_data_no_bridge_authors, dashboard_data_no_network_stats.
  destruct (dashboard_data d now) as [doc|e] eqn:Hd; cbn [bind]; [|reflexivity].
  unfold json_dump.
  destruct (finite_leaves doc) eqn:Hfin; [|exact I].
  destruct (cleared_places_finite d now Hd Hfin) as [Hb Hs].
  rewrite Hb, Hs. split; reflexivity.
Qed.

(** ** The two means of the upvotes *)







(** ** Sample runs of the further properties *)

Lemma best_hour_and_day_witness :
  exists d ins, export_insights d = Ok ins /\ best_timing d ins.
Proof.
  exists three_posts_data. eexists. split; [vm_compute; reflexivity|].
  apply (best_hour_and_day three_posts_data). vm_compute. reflexivity.
Defined.

Lemma no_timestamp_no_document_witness :
  exists d,
    load_all_data undated_files = Ok d /\ no_timestamp d /\
    (exists e, export_insights d = Raise e) /\
    exists e, main undated_files "2026-02-01T00:00:00" = (Raise e, Untouched).
Proof.
  exists (mk_data [undated_post] (range_index [sample_author]) [] [] []).
  assert (Hn : no_timestamp
                 (mk_data [undated_post] (range_index [sample_author]) [] [] []))
    by (intros p [<-|[]]; reflexivity).
  split; [reflexivity|]. split; [exact Hn|].
  exact (@no_timestamp_no_document undated_files "2026-02-01T00:00:00" _
           eq_refl Hn).
Defined.

Lemma empty_author_table_raises_witness :
  exists d,
    load_all_data empty_authors_files = Ok d /\ author_stats d = [] /\
    export_top_authors d 20
    = Raise (TypeError "engagement_rate has dtype object, cannot use method nlargest") /\
    exists e, main empty_authors_files "2026-02-01T00:00:00" = (Raise e, Untouched).
Proof.
  exists (mk_data [sample_post] [] [] [] []).
  split; [reflexivity|]. split; [reflexivity|].
  exact (@empty_author_table_raises empty_authors_files "2026-02-01T00:00:00" _
           eq_refl eq_refl).
Defined.

Lemma undefined_statistics_stop_writer_witness :
  exists doc,
    dashboard_data bridge_data "2026-02-01T00:00:00" = Ok doc /\
    bridge_score_not_finite bridge_data /\
    json_dump doc = (Raise nan_error, Truncated).
Proof.
  assert (Hb : bridge_score_not_finite bridge_data).
  { split; [simpl; lia|]. exists ("b", PInf false). split; [simpl; auto|reflexivity]. }
  eexists. split; [vm_compute; reflexivity|]. split; [exact Hb|].
  apply (@undefined_statistics_stop_writer bridge_data "2026-02-01T00:00:00").
  - vm_compute. reflexivity.
  - right. exact Hb.
Defined.

Lemma top_bridge_authors_ranked_witness :
  exists net ranked,
    export_network_data bridge_data = Ok net /\
    get_field "stats" net = Some (JObj (network_stats bridge_data)) /\
    get_field "top_bridge_authors" net = Some (JList (map bridge_entry ranked)) /\
    List.length ranked <= 20 /\
    selects (fun x y : string * pyfloat => float_le (snd y) (snd x)) 20
            (bridge_authors bridge_data) ranked.
Proof.
  assert (Hn : no_nan_score (bridge_authors bridge_data)).
  { intros kv [<-|[<-|[<-|[]]]]; discriminate. }
  destruct (@top_bridge_authors_ranked bridge_data _ Hn eq_refl) as [ranked H].
  eexists. exists ranked. split; [reflexivity|exact H].
Defined.


Lemma daily_posts_dates_witness :
  exists d ts, export_time_series d = Ok ts /\ daily_dates d ts.
Proof.
  exists three_posts_data. eexists. split; [vm_compute; reflexivity|].
  apply (daily_posts_dates three_posts_data). vm_compute. reflexivity.
Defined.

Lemma time_series_counts_witness :
  exists d ts, export_time_series d = Ok ts /\ series_counts d ts.
Proof.
  exists three_posts_data. eexists. split; [vm_compute; reflexivity|].
  apply (time_series_counts three_posts_data). vm_compute. reflexivity.
Defined.

Lemma document_counts_agree_witness :
  exists d doc,
    dashboard_data d "2026-02-01T00:00:00" = Ok doc /\ counts_agree d doc.
Proof.
  exists three_posts_data. eexists. split; [vm_compute; reflexivity|].
  apply (document_counts_agree three_posts_data "2026-02-01T00:00:00").
  vm_compute. reflexivity.
Defined.

Lemma active_count_matches_rankings_witness :
  exists d doc,
    dashboard_data d "2026-02-01T00:00:00" = Ok doc /\ active_rankings d doc.
Proof.
  exists three_posts_data. eexists. split; [vm_compute; reflexivity|].
  apply (active_count_matches_rankings three_posts_data "2026-02-01T00:00:00").
  vm_compute. reflexivity.
Defined.

Lemma best_hour_matches_pattern_witness :
  exists d doc,
    dashboard_data d "2026-02-01T00:00:00" = Ok doc /\ best_hour_in_pattern d doc.
Proof.
  exists three_posts_data. eexists. split; [vm_compute; reflexivity|].
  apply (best_hour_matches_pattern three_posts_data "2026-02-01T00:00:00").
  vm_compute. reflexivity.
Defined.

